(** * BRK CNC ToolManager: the matrix-tool reconciliation of [server/index.js]

    A shallow embedding of the handlers [GET /api/tools/matrix] and
    [GET /api/tools/matrix/usage]: family-code extraction ([getImageUrl]),
    definition lookup ([getToolData]), the category chain, the pattern filter
    ([filteredTools]), the dashboard transform ([matrixTools]), usage
    aggregation ([usageMap]) and the usage merge ([toolsWithUsage]).

    Modelling conventions.
    - A JavaScript string is a [string]: a sequence of code units. All
      literals of the source are ASCII.
    - A value that may be [undefined] or [null] is an [option].
    - A stock count ([quantity]) is an integer ([Z]); on integers below
      2^53 the double arithmetic of the source is exact, and
      [Math.floor (q * 0.3)] agrees with the floor of the rational product
      for every integer [q] in that range. Diameters and tool-life ratings
      are rationals ([Q]); they are only ever copied or defaulted.
    - Machining minutes are integers ([Z]) in [usageMap]; the same loop is
      given over any arithmetic in [usageMapIn], with the integers and the
      IEEE 754 doubles of the source as instances, for what depends on how
      sums are rounded.
    - A plain object used as a dictionary ([baseDiameters], [usageMap]) is a
      [gmap string _]; it is only ever read by key, never enumerated. Keys
      are tool codes and digit strings, not names of members of
      [Object.prototype]. *)

From Stdlib Require Import ZArith QArith Qround Ascii String List Permutation Lia SpecFloat.
From stdpp Require Import base option list gmap strings.

Local Open Scope Z_scope.

(** ** JavaScript string primitives *)

Module JS.

(** [\d] of a regular expression without the [u] flag: [0-9]. *)
Definition is_digit (c : ascii) : bool :=
  match c with
  | "0" | "1" | "2" | "3" | "4" | "5" | "6" | "7" | "8" | "9" => true
  | _ => false
  end%char.

(** The characters of a matrix code once its prefix and suffix are gone:
    digits, and the feed-type letter. *)
Definition digit_or_X (c : ascii) : bool := is_digit c || Ascii.eqb c "X".

Fixpoint all_digits (s : string) : bool :=
  match s with
  | EmptyString => true
  | String c s' => is_digit c && all_digits s'
  end.

Fixpoint all_chars (P : ascii -> bool) (s : string) : bool :=
  match s with
  | EmptyString => true
  | String c s' => P c && all_chars P s'
  end.

Fixpoint take (n : nat) (s : string) : string :=
  match n, s with
  | O, _ => EmptyString
  | S _, EmptyString => EmptyString
  | S n', String c s' => String c (take n' s')
  end.

Fixpoint drop (n : nat) (s : string) : string :=
  match n, s with
  | O, _ => s
  | S _, EmptyString => EmptyString
  | S n', String _ s' => drop n' s'
  end.

(** [s.startsWith(p)] *)
Fixpoint startsWith (s p : string) {struct p} : bool :=
  match p, s with
  | EmptyString, _ => true
  | String _ _, EmptyString => false
  | String a p', String b s' => if Ascii.eqb a b then startsWith s' p' else false
  end.

(** [s.includes(p)] *)
Fixpoint includes (s p : string) : bool :=
  startsWith s p ||
  match s with
  | EmptyString => false
  | String _ s' => includes s' p
  end.

(** [s.replace(pat, '')] with a string pattern: the first occurrence of
    [pat], wherever it is, is removed; without one the string is returned
    unchanged. *)
Fixpoint replace_first_empty (pat s : string) : string :=
  if startsWith s pat then drop (String.length pat) s
  else match s with
       | EmptyString => EmptyString
       | String c s' => String c (replace_first_empty pat s')
       end.

(** [s.split(sep)[0]] for a one-character separator: everything before the
    first [sep], the whole string when there is none. *)
Fixpoint split_head (sep : ascii) (s : string) : string :=
  match s with
  | EmptyString => EmptyString
  | String c s' => if Ascii.eqb c sep then EmptyString else String c (split_head sep s')
  end.

(** [s.substring(1)] *)
Definition substring_from1 (s : string) : string := drop 1 s.

(** [s.slice(0, e)]: a negative [e] counts from the end. *)
Definition slice0 (e : Z) (s : string) : string :=
  let len := Z.of_nat (String.length s) in
  let stop := if e <? 0 then Z.max (len + e) 0 else Z.min e len in
  take (Z.to_nat stop) s.

(** Truthiness of a possibly missing string: [undefined], [null] and ['']
    are falsy. *)
Definition truthy (o : option string) : bool :=
  match o with
  | Some (String _ _) => true
  | _ => false
  end.

(** [o || d] on strings *)
Definition str_or (o : option string) (d : string) : string :=
  match o with
  | Some (String c s) => String c s
  | _ => d
  end.

(** [o || d] on integers: a missing value and [0] are falsy. *)
Definition int_or (o : option Z) (d : Z) : Z :=
  match o with
  | Some v => if v =? 0 then d else v
  | None => d
  end.

(** [a || b] on possibly missing integers, itself possibly missing *)
Definition opt_or (a b : option Z) : option Z :=
  match a with
  | Some v => if v =? 0 then b else a
  | None => b
  end.

(** [o || d] on rationals *)
Definition num_or (o : option Q) (d : Q) : Q :=
  match o with
  | Some v => if Qeq_bool v 0 then d else v
  | None => d
  end.

(** The greedy quantifier [\d{4,5}] at the head of [s]: up to five digits
    are consumed, and at least four are needed. *)
Fixpoint leading_digits (n : nat) (s : string) : string :=
  match n, s with
  | S n', String c s' => if is_digit c then String c (leading_digits n' s') else EmptyString
  | _, _ => EmptyString
  end.

Definition digits_4_5 (s : string) : option string :=
  let d := leading_digits 5 s in
  if (4 <=? String.length d)%nat then Some d else None.

(** [s.match(/P(\d{4,5})/)]: the capture of the leftmost match. *)
Fixpoint match_P (s : string) : option string :=
  match s with
  | EmptyString => None
  | String c s' =>
      if Ascii.eqb c "P" then
        match digits_4_5 s' with
        | Some d => Some d
        | None => match_P s'
        end
      else match_P s'
  end.

(** [s.match(/RT-([X]?)(\d{4,5})/)]: the second capture of the leftmost
    match. The optional [X] is tried first; when the digits do not follow
    it the matcher backtracks to the empty alternative. *)
Definition match_RT_here (s : string) : option string :=
  if startsWith s "RT-" then
    let r := drop 3 s in
    match (if startsWith r "X" then digits_4_5 (drop 1 r) else None) with
    | Some d => Some d
    | None => digits_4_5 r
    end
  else None.

Fixpoint match_RT (s : string) : option string :=
  match match_RT_here s with
  | Some d => Some d
  | None =>
      match s with
      | EmptyString => None
      | String _ s' => match_RT s'
      end
  end.

End JS.

(** ** Categories and the category chain (lines 312-317) *)

Inductive Category : Set := ECUT | MFC | XF | XFEED | OTHER.

Definition category (code : string) : Category :=
  if JS.includes code "8400" || JS.includes code "8410" || JS.includes code "8420" then ECUT
  else if JS.includes code "8201" || JS.includes code "8211" || JS.includes code "8221" then MFC
  else if JS.includes code "1525" || JS.includes code "8521" then XF
  else if JS.includes code "7620" || JS.includes code "7624" then XFEED
  else OTHER.

(** ** Family code and image URL ([getImageUrl], lines 280-304) *)

Definition cleaned (toolCode : string) : string :=
  let cleaned := JS.split_head "_" (JS.replace_first_empty "RT-" toolCode) in
  if JS.startsWith cleaned "X" then JS.substring_from1 cleaned else cleaned.

Definition familyCode (toolCode : string) : string :=
  let cleaned := cleaned toolCode in
  if (6 <=? String.length cleaned)%nat then JS.slice0 (-3) cleaned
  else JS.slice0 4 cleaned.

Definition getImageUrl (toolCode : option string) : option string :=
  if negb (JS.truthy toolCode) then None
  else match toolCode with
       | Some c => Some ("/api/images/tools/" +:+ familyCode c +:+ ".png")
       | None => None
       end.


(** ** Tool definitions ([baseDiameters], lines 218-243) *)

(** One entry of [baseDiameters]: the three fields copied from a tool of the
    definitions file, each of which may be missing there. *)
Module ToolDefinition.
Record t : Type := mk {
  diameter : option Q;
  toolLife : option Q;
  codePrefix : option string
}.
End ToolDefinition.

(** The object returned by [getToolData]. *)
Module ToolData.
Record t : Type := mk {
  diameter : Q;
  toolLife : Q;
  codePrefix : string
}.

Definition neutral : t := mk 0%Q 0%Q EmptyString.

(** The object literal built from a table entry, with its [|| 0] and
    [|| ''] defaults. *)
Definition of_definition (d : ToolDefinition.t) : t :=
  mk (JS.num_or (ToolDefinition.diameter d) 0%Q)
     (JS.num_or (ToolDefinition.toolLife d) 0%Q)
     (JS.str_or (ToolDefinition.codePrefix d) EmptyString).
End ToolData.

(** [getToolData] (lines 246-269). An entry of [baseDiameters] is an object
    and therefore truthy: the test [baseDiameters[k]] succeeds exactly when
    the key is present. *)
Definition getToolData (baseDiameters : gmap string ToolDefinition.t)
    (toolCode : option string) : ToolData.t :=
  if negb (JS.truthy toolCode) then ToolData.neutral
  else
    let toolCode := JS.str_or toolCode EmptyString in
    match baseDiameters !! toolCode with
    | Some d => ToolData.of_definition d
    | None =>
        let baseCode := JS.split_head "_" toolCode in
        match baseDiameters !! baseCode with
        | Some d => ToolData.of_definition d
        | None => ToolData.neutral
        end
    end.

(** ** Inventory rows and the dashboard transform (lines 213, 272-334) *)

Module InventoryRow.
Record t : Type := mk {
  toolCode : option string;
  quantity : option Z
}.
End InventoryRow.

Module MatrixTool.
Record t : Type := mk {
  toolId : option string;
  diameter : Q;
  toolLife : Q;
  toolType : Category;
  category : Category;
  codePrefix : string;
  setupTime : Z;
  inPool : Z;
  warningThreshold : Z;
  imageUrl : option string
}.
End MatrixTool.

(** The built-in pattern list, used when no definitions file is present
    (line 217). *)
Definition default_matrixCodePatterns : list string :=
  ["8400"; "8410"; "8420"; "8201"; "8211"; "8221"; "1525"; "8521"; "7620"; "7624"].

(** The predicate of [filteredTools] (lines 272-275). *)
Definition is_matrix_row (matrixCodePatterns : list string) (tool : InventoryRow.t) : bool :=
  let code := JS.str_or (InventoryRow.toolCode tool) EmptyString in
  existsb (fun pattern => JS.includes code pattern) matrixCodePatterns.

Definition filteredTools (matrixCodePatterns : list string)
    (toolInventory : list InventoryRow.t) : list InventoryRow.t :=
  List.filter (is_matrix_row matrixCodePatterns) toolInventory.

(** [Math.max(3, Math.floor(quantity * 0.3))] (line 309). *)
Definition warningThreshold (quantity : Z) : Z :=
  Z.max 3 (Qfloor (inject_Z quantity * 0.3)).

(** The callback of [filteredTools.map] (lines 307-334). *)
Definition toMatrixTool (baseDiameters : gmap string ToolDefinition.t)
    (tool : InventoryRow.t) : MatrixTool.t :=
  let quantity := JS.int_or (InventoryRow.quantity tool) 0 in
  let warningThreshold := warningThreshold quantity in
  let code := JS.str_or (InventoryRow.toolCode tool) EmptyString in
  let category := category code in
  let data := getToolData baseDiameters (InventoryRow.toolCode tool) in
  {| MatrixTool.toolId := InventoryRow.toolCode tool;
     MatrixTool.diameter := ToolData.diameter data;
     MatrixTool.toolLife := ToolData.toolLife data;
     MatrixTool.toolType := category;
     MatrixTool.category := category;
     MatrixTool.codePrefix := ToolData.codePrefix data;
     MatrixTool.setupTime := 0;
     MatrixTool.inPool := quantity;
     MatrixTool.warningThreshold := warningThreshold;
     MatrixTool.imageUrl := getImageUrl (InventoryRow.toolCode tool) |}.

Definition matrixTools (matrixCodePatterns : list string)
    (baseDiameters : gmap string ToolDefinition.t)
    (toolInventory : list InventoryRow.t) : list MatrixTool.t :=
  List.map (toMatrixTool baseDiameters) (filteredTools matrixCodePatterns toolInventory).

(** ** Usage aggregation ([usageMap], lines 400-413) *)

(** A processed tool as [getAllTools] returns it: the fields the loop reads. *)
Module UsageRecord.
Record t : Type := mk {
  id : string;
  usageMinutes : option Z;
  runningTime : option Z
}.

(** [tool.usageMinutes || tool.runningTime || 0] *)
Definition minutes (tool : t) : Z :=
  JS.int_or (JS.opt_or (usageMinutes tool) (runningTime tool)) 0.
End UsageRecord.

(** One iteration of the loop body. *)
Definition usageMap_step (usageMap : gmap string Z) (tool : UsageRecord.t) : gmap string Z :=
  let usageMinutes := UsageRecord.minutes tool in
  if 0 <? usageMinutes then
    match JS.match_P (UsageRecord.id tool) with
    | Some codePattern =>
        <[codePattern := JS.int_or (usageMap !! codePattern) 0 + usageMinutes]> usageMap
    | None => usageMap
    end
  else usageMap.

Definition usageMap (allTools : list UsageRecord.t) : gmap string Z :=
  fold_left usageMap_step allTools ∅.

(** ** Merging usage into the matrix tools ([toolsWithUsage], lines 416-432) *)

Module ToolWithUsage.
Record t : Type := mk {
  tool : MatrixTool.t;
  usageMinutes : Z
}.
End ToolWithUsage.

(** The code pattern under which a matrix tool is looked up. [None] is the
    [TypeError] of [tool.toolId.match] on a missing [toolId]. *)
Definition codePattern (tool : MatrixTool.t) : option string :=
  if JS.truthy (Some (MatrixTool.codePrefix tool)) then Some (MatrixTool.codePrefix tool)
  else
    match MatrixTool.toolId tool with
    | None => None
    | Some toolId =>
        match JS.match_RT toolId with
        | Some d => Some d
        | None => Some EmptyString
        end
    end.

Definition withUsage (usageMap : gmap string Z) (tool : MatrixTool.t) : option ToolWithUsage.t :=
  match codePattern tool with
  | Some codePattern =>
      Some {| ToolWithUsage.tool := tool;
              ToolWithUsage.usageMinutes := JS.int_or (usageMap !! codePattern) 0 |}
  | None => None
  end.

(** The [map] as a whole: it throws as soon as one callback does. *)
Definition toolsWithUsage (usageMap : gmap string Z)
    (matrixTools : list MatrixTool.t) : option (list ToolWithUsage.t) :=
  mapM (withUsage usageMap) matrixTools.


(** ** The specification's wording, as definitions of its own *)

Module Spec.

(** "Strip a manufacturer prefix ([RT-])". *)
Definition strip_prefix (code : string) : string :=
  if JS.startsWith code "RT-" then JS.drop 3 code else code.

Definition nonempty_digits (s : string) : bool :=
  match s with
  | EmptyString => false
  | String _ _ => JS.all_digits s
  end.

(** "... and any trailing variant suffix ([_<digits>])": the string is cut
    at an underscore that is followed by digits only, up to its end. *)
Fixpoint strip_variant (code : string) : string :=
  match code with
  | EmptyString => EmptyString
  | String c s =>
      if Ascii.eqb c "_" && nonempty_digits s then EmptyString
      else String c (strip_variant s)
  end.

(** "... and one leading [X] feed-type letter". *)
Definition strip_feed (code : string) : string :=
  match code with
  | String "X" s => s
  | _ => code
  end.

(** What remains of a code after the three strippings. *)
Definition remaining (code : string) : string :=
  strip_feed (strip_variant (strip_prefix code)).

(** "If the remaining digit string has length >= 6, the family code is all
    digits except the last 3; otherwise the first 4 digits". *)
Definition length_rule (digits : string) : string :=
  if (6 <=? String.length digits)%nat
  then JS.take (String.length digits - 3) digits
  else JS.take 4 digits.

(** "A fixed, ordered table of family-code-substring -> category mappings
    (first match wins); codes matching none classify as OTHER". *)
Definition category_table : list (list string * Category) :=
  [ (["8400"; "8410"; "8420"], ECUT);
    (["8201"; "8211"; "8221"], MFC);
    (["1525"; "8521"], XF);
    (["7620"; "7624"], XFEED) ].

Definition entry_matches (code : string) (e : list string * Category) : bool :=
  existsb (fun sub => JS.includes code sub) (fst e).

Fixpoint classify (table : list (list string * Category)) (code : string) : Category :=
  match table with
  | [] => OTHER
  | e :: rest => if entry_matches code e then snd e else classify rest code
  end.

(** "A literal marker letter followed by 4-5 digits embedded anywhere in
    the identifier": a [P] with at least four digits right after it. *)
Definition has_marker (id : string) : Prop :=
  exists pre d post,
    id = pre +:+ String "P" (d +:+ post) /\
    String.length d = 4%nat /\ JS.all_digits d = true.

(** The sum of the minutes of the records attributed to a family code. *)
Definition attributed (k : string) (r : UsageRecord.t) : bool :=
  (0 <? UsageRecord.minutes r) && bool_decide (JS.match_P (UsageRecord.id r) = Some k).

Definition total (k : string) (rs : list UsageRecord.t) : Z :=
  fold_right Z.add 0 (List.map UsageRecord.minutes (List.filter (attributed k) rs)).

End Spec.

(** ** The Tool entity and its two-state machine *)

(** Modelled from the spec: the [Tool] class ([src/Tool.js]) and the
    [ToolState] enumeration ([utils/ToolState.js]) are not among the
    sources, only the test-suite of [Tool] is. The record holds the fields
    the tests read; the state machine is the one of section 4.4. *)
Module ToolState.
Inductive t : Set := FREE | IN_USE.
End ToolState.

(** Modelled from the spec: a usage event names a tool and says whether an
    in-progress job actively claims it. *)
Module UsageEvent.
Record t : Type := mk {
  tool : string;
  claimed : bool
}.
End UsageEvent.

Module Tool.
(** Modelled from the spec: the canonical registry entry of section 3,
    restricted to the fields the test-suite observes. *)
Record t : Type := mk {
  matrixCode : string;
  diameter : option Q;
  description : option string;
  toolState : ToolState.t;
  usageHistory : list UsageEvent.t;
  projectList : list string
}.

(** Modelled from the spec: [new Tool(matrixCode, diameter, _, options)],
    with "FREE is the only valid initial state" and an empty history. *)
Definition new (matrixCode : string) (diameter : option Q)
    (description : option string) : t :=
  mk matrixCode diameter description ToolState.FREE [] [].

(** Modelled from the spec: "FREE -> IN_USE when a usage event names this
    tool as actively claimed by an in-progress job; IN_USE -> FREE when
    the owning job completes or is not found in the latest active-job
    set"; total over {current state, observed claim}. *)
Definition transition (s : ToolState.t) (claimed : bool) : ToolState.t :=
  if claimed then ToolState.IN_USE else ToolState.FREE.

(** Modelled from the spec: a tool receives the events that name it; each
    one is appended to its history and drives its state. *)
Definition receive (tl : t) (e : UsageEvent.t) : t :=
  if String.eqb (UsageEvent.tool e) (matrixCode tl) then
    mk (matrixCode tl) (diameter tl) (description tl)
       (transition (toolState tl) (UsageEvent.claimed e))
       (usageHistory tl ++ [e]) (projectList tl)
  else tl.

Definition run (tl : t) (events : list UsageEvent.t) : t :=
  fold_left receive events tl.
End Tool.

(** ** Loading the tool definitions (lines 216-243) *)

(** A tool of a category of [matrix-tool-definitions.json]. Its [toolCode]
    is a string, [null], or missing; the other fields are [None] when they
    are missing or [null]. *)
Module ToolEntry.
Inductive code : Type :=
| Missing
| Null
| Code (s : string).

Record t : Type := mk {
  toolCode : code;
  diameter : option Q;
  toolLife : option Q;
  codePrefix : option string
}.

(** The property key [baseDiameters[tool.toolCode]] is written under:
    [undefined] and [null] are turned into their names. *)
Definition key (tool : t) : string :=
  match toolCode tool with
  | Code s => s
  | Null => "null"
  | Missing => "undefined"
  end.

Definition definition (tool : t) : ToolDefinition.t :=
  ToolDefinition.mk (diameter tool) (toolLife tool) (codePrefix tool).
End ToolEntry.

(** A category of the file, as the loop reads it. [codePatterns] is falsy
    or missing, an array of strings, a non-empty string (which the spread
    takes apart into its characters), or another value, which cannot be
    spread. [tools] is an array whose elements are objects or [null], or
    anything else, which the loop skips. A category that is a number, a
    string or a boolean has neither field. *)
Module CategoryDefinition.
Inductive patterns : Type :=
| NoPatterns
| PatternList (l : list string)
| PatternString (s : string)
| NotIterable.

Inductive tool_list : Type :=
| NoTools
| ToolList (l : list (option ToolEntry.t)).

Record t : Type := mk {
  codePatterns : patterns;
  tools : tool_list
}.

Fixpoint characters (s : string) : list string :=
  match s with
  | EmptyString => []
  | String c s' => String c EmptyString :: characters s'
  end.

(** The elements [...(category.codePatterns || [])] pushes; [None] is the
    [TypeError] of a spread that cannot be iterated. *)
Definition pattern_items (c : t) : option (list string) :=
  match codePatterns c with
  | NoPatterns => Some []
  | PatternList l => Some l
  | PatternString s => Some (characters s)
  | NotIterable => None
  end.

(** The elements [forEach] visits. *)
Definition tool_items (c : t) : list (option ToolEntry.t) :=
  match tools c with
  | NoTools => []
  | ToolList l => l
  end.
End CategoryDefinition.

(** What the handler finds at [definitionsPath]: no file, a file that
    cannot be read or that [JSON.parse] rejects, or a parsed value. Of a
    parsed value the handler reads [categories]: [None] when it is missing
    or falsy (the loop then has nothing to visit; a parsed [null] ends the
    same way, in the [catch]), else the properties of the object in
    insertion order, under distinct names, a [null] category being
    [None]. *)
Inductive DefinitionsFile : Type :=
| NoDefinitions
| UnparsableDefinitions
| ParsedDefinitions (categories : option (list (string * option CategoryDefinition.t))).

(** [o || []] *)
Definition list_or {A : Type} (o : option (list A)) : list A :=
  match o with
  | Some l => l
  | None => []
  end.

(** *** The order of [Object.values] *)

Fixpoint decimal_value (acc : N) (s : string) : N :=
  match s with
  | EmptyString => acc
  | String c s' => decimal_value (10 * acc + (N_of_ascii c - 48))%N s'
  end.

(** An array index: the canonical decimal name of an integer up to
    2^32 - 2. *)
Definition array_index (name : string) : option N :=
  match name with
  | EmptyString => None
  | String c rest =>
      if JS.all_digits name && (negb (Ascii.eqb c "0") || String.eqb rest EmptyString)
      then (if (decimal_value 0 name <=? 4294967294)%N
            then Some (decimal_value 0 name) else None)
      else None
  end.

Fixpoint insert_by_index {A : Type} (x : N * A) (l : list (N * A)) : list (N * A) :=
  match l with
  | [] => [x]
  | y :: l' => if (fst x <=? fst y)%N then x :: l else y :: insert_by_index x l'
  end.

Definition indexed_fields {A : Type} (fields : list (string * A)) : list (N * A) :=
  List.flat_map (fun f => match array_index (fst f) with
                          | Some n => [(n, snd f)]
                          | None => []
                          end) fields.

Definition named_fields {A : Type} (fields : list (string * A)) : list (string * A) :=
  List.filter (fun f => match array_index (fst f) with
                        | Some _ => false
                        | None => true
                        end) fields.

(** [Object.values(o)]: the values under array indices in ascending order of
    the index, then the others in insertion order. *)
Definition object_values {A : Type} (fields : list (string * A)) : list A :=
  List.map snd (fold_right insert_by_index [] (indexed_fields fields))
  ++ List.map snd (named_fields fields).

(** *** The loop *)

(** The assignment [baseDiameters[tool.toolCode] = {...}]. *)
Definition write_entry (baseDiameters : gmap string ToolDefinition.t) (tool : ToolEntry.t)
    : gmap string ToolDefinition.t :=
  <[ToolEntry.key tool := ToolEntry.definition tool]> baseDiameters.

(** The two variables the loop fills, and whether an exception has ended
    it; the [catch] of line 240 keeps what was filled before. *)
Record loader : Type := mkLoader {
  loaded_patterns : list string;
  loaded_table : gmap string ToolDefinition.t;
  thrown : bool
}.

(** The callback of [category.tools.forEach]; reading [tool.toolCode] of a
    [null] tool throws. *)
Definition index_tool (st : loader) (tool : option ToolEntry.t) : loader :=
  if thrown st then st
  else match tool with
       | None => mkLoader (loaded_patterns st) (loaded_table st) true
       | Some t =>
           mkLoader (loaded_patterns st) (write_entry (loaded_table st) t) false
       end.

(** One iteration of the loop over the categories. *)
Definition load_category (st : loader) (category : option CategoryDefinition.t) : loader :=
  if thrown st then st
  else match category with
       | None => mkLoader (loaded_patterns st) (loaded_table st) true
       | Some c =>
           match CategoryDefinition.pattern_items c with
           | None => mkLoader (loaded_patterns st) (loaded_table st) true
           | Some items =>
               fold_left index_tool (CategoryDefinition.tool_items c)
                 (mkLoader (loaded_patterns st ++ items) (loaded_table st) false)
           end
       end.

(** [matrixCodePatterns] and [baseDiameters] as the handler has them after
    the definitions block. The pattern list is emptied only once the file
    has been parsed. *)
Definition loadDefinitions (file : DefinitionsFile)
    : list string * gmap string ToolDefinition.t :=
  match file with
  | NoDefinitions => (default_matrixCodePatterns, ∅)
  | UnparsableDefinitions => (default_matrixCodePatterns, ∅)
  | ParsedDefinitions categories =>
      let st := fold_left load_category (object_values (list_or categories))
                          (mkLoader [] ∅ false) in
      (loaded_patterns st, loaded_table st)
  end.

(** The matrix view of an inventory under a definitions file. *)
Definition matrixView (file : DefinitionsFile) (toolInventory : list InventoryRow.t)
    : list MatrixTool.t :=
  matrixTools (fst (loadDefinitions file)) (snd (loadDefinitions file)) toolInventory.

(** A file the loop reads to its end: no [null] category, no [codePatterns]
    that cannot be spread, no [null] tool. *)
Definition well_formed_category (category : option CategoryDefinition.t) : bool :=
  match category with
  | None => false
  | Some c =>
      match CategoryDefinition.pattern_items c with
      | None => false
      | Some _ => forallb (fun t => match t with Some _ => true | None => false end)
                          (CategoryDefinition.tool_items c)
      end
  end.

Definition patterns_of (category : option CategoryDefinition.t) : list string :=
  match category with
  | Some c => list_or (CategoryDefinition.pattern_items c)
  | None => []
  end.

Definition tools_of (category : option CategoryDefinition.t) : list ToolEntry.t :=
  match category with
  | Some c => List.flat_map (fun t => match t with Some e => [e] | None => [] end)
                            (CategoryDefinition.tool_items c)
  | None => []
  end.

(** All tools of the categories, in the order they are visited. *)
Definition all_tools (categories : list (option CategoryDefinition.t)) : list ToolEntry.t :=
  List.flat_map tools_of categories.

(** The last entry written under a key. *)
Definition last_entry (k : string) (tools : list ToolEntry.t) : option ToolEntry.t :=
  List.find (fun tool => String.eqb (ToolEntry.key tool) k) (List.rev tools).

(** ** Serving tool images (lines 129-186) *)

Definition no_dot (s : string) : bool :=
  JS.all_chars (fun c => negb (Ascii.eqb c ".")) s.

Definition nonempty_no_dot (s : string) : bool :=
  match s with
  | EmptyString => false
  | String _ _ => no_dot s
  end.

(** [filename.replace(/\.[^.]+$/, '')]: the match starts at the first dot
    that is followed, up to the end, by one or more characters other than a
    dot. *)
Fixpoint baseFilename (filename : string) : string :=
  match filename with
  | EmptyString => EmptyString
  | String c s =>
      if Ascii.eqb c "." && nonempty_no_dot s then EmptyString
      else String c (baseFilename s)
  end.

Definition extensions : list string :=
  [".JPG"; ".jpg"; ".jfif"; ".gif"; ".png"; ".jpeg"].

(** The search for the file to serve. [existsSync] is the state of the file
    system and [join manufacturer name] stands for
    [path.join(toolImagesPath, manufacturer, name)]. [None] is answered with
    404. *)
Definition foundPath (existsSync : string -> bool) (join : string -> string -> string)
    (manufacturer filename : string) : option string :=
  let baseFilename := baseFilename filename in
  let imagePath := join manufacturer filename in
  if existsSync imagePath then Some imagePath
  else
    List.find existsSync
      (List.map (fun ext => join manufacturer (baseFilename +:+ ext)) extensions).

(** ** The logger ([utils/Logger.js]) *)

Module Logger.

(** [s.replace(pat, rep)] with a string pattern and a replacement without
    [$]: the first occurrence is replaced. *)
Fixpoint replace_first (pat rep s : string) : string :=
  if JS.startsWith s pat then rep +:+ JS.drop (String.length pat) s
  else match s with
       | EmptyString => EmptyString
       | String c s' => String c (replace_first pat rep s')
       end.

(** [toUpperCase] on the ASCII letters; the level names are ASCII. *)
Definition upper_char (c : ascii) : ascii :=
  let n := nat_of_ascii c in
  if (97 <=? n)%nat && (n <=? 122)%nat then ascii_of_nat (n - 32) else c.

Fixpoint toUpperCase (s : string) : string :=
  match s with
  | EmptyString => EmptyString
  | String c s' => String (upper_char c) (toUpperCase s')
  end.

Definition newline : string := String "010"%char EmptyString.

(** The static fields the methods read and write. *)
Record state : Type := mkState {
  logLevel : string;
  logFile : option string;
  consoleEnabled : bool
}.

(** The field initialisers of the class. *)
Definition initial : state := mkState "info" None true.

(** The argument of [initialize]; a missing field is [None]. *)
Record config : Type := mkConfig {
  level : option string;
  file : option string;
  console : option bool
}.

(** What a call does to the outside. *)
Inductive effect : Type :=
| Stdout (text : string)
| Stderr (text : string)
| AppendFile (path text : string)
| Mkdir (dir : string).

(** What a call reads from the outside: the clock as [toISOString] prints
    it, the file system, and the two [path] functions used. A write that
    throws is [Some] of the message of the error. *)
Record env : Type := mkEnv {
  now : string;
  existsSync : string -> bool;
  mkdirSync : string -> option string;
  appendFileSync : string -> string -> option string;
  dirname : string -> string;
  join : string -> string -> string
}.

(** The outcome of a call that may throw. *)
Record outcome : Type := mkOutcome {
  after : state;
  effects : list effect;
  thrown : option string
}.

(** [now.toISOString().replace('T', ' ').substring(0, 19)] *)
Definition getTimestamp (e : env) : string :=
  JS.take 19 (replace_first "T" " " (now e)).

(** The line both sinks receive. *)
Definition plainMessage (e : env) (level message : string) : string :=
  "[" +:+ getTimestamp e +:+ "] [" +:+ toUpperCase level +:+ "] " +:+ message.

Definition writeLog (e : env) (st : state) (level message : string) : list effect :=
  let plainMessage := plainMessage e level message in
  (if consoleEnabled st then [Stdout (plainMessage +:+ newline)] else [])
  ++ (if JS.truthy (logFile st) then
        let logFile := JS.str_or (logFile st) EmptyString in
        match appendFileSync e logFile (plainMessage +:+ newline) with
        | None => [AppendFile logFile (plainMessage +:+ newline)]
        | Some message =>
            [Stderr ("Failed to write to log file: " +:+ message +:+ newline)]
        end
      else []).

(** The four logging methods; each returns the empty string. *)
Definition info (e : env) (st : state) (message : string) : list effect :=
  writeLog e st "info" message.

Definition error (e : env) (st : state) (message : string) : list effect :=
  writeLog e st "error" message.

Definition warn (e : env) (st : state) (message : string) : list effect :=
  writeLog e st "warn" message.

Definition debug (e : env) (st : state) (message : string) : list effect :=
  if String.eqb (logLevel st) "debug" then writeLog e st "debug" message else [].

Definition ensureLogDirectory (e : env) (st : state) : outcome :=
  if JS.truthy (logFile st) then
    let logDir := dirname e (JS.str_or (logFile st) EmptyString) in
    if negb (existsSync e logDir) then
      match mkdirSync e logDir with
      | None => mkOutcome st [Mkdir logDir] None
      | Some message => mkOutcome st [] (Some message)
      end
    else mkOutcome st [] None
  else mkOutcome st [] None.

Definition initialize (e : env) (st : state) (cfg : config) : outcome :=
  let st1 :=
    mkState (JS.str_or (level cfg) "info") (logFile st)
            (match console cfg with Some false => false | _ => true end) in
  if JS.truthy (file cfg) then
    ensureLogDirectory e (mkState (logLevel st1) (file cfg) (consoleEnabled st1))
  else mkOutcome st1 [] None.

End Logger.

(** ** The configuration and scan handlers (lines 571-706) *)

Module Server.

(** The fields of the [config] module the handler assigns. *)
Record config : Type := mkConfig {
  testMode : bool;
  autoMode : bool;
  userDefinedWorkingFolder : option string;
  paths_json : option string;
  paths_excel : option string
}.

(** The module state: the configuration, and whether [executor] holds an
    object. *)
Record state : Type := mkState {
  cfg : config;
  executor : bool
}.

Record scanPaths : Type := mkScanPaths {
  jsonFiles : option string;
  excelFiles : option string
}.

(** The body of [POST /api/config]. [testMode] is [None] when the field is
    missing or not a boolean. *)
Record body : Type := mkBody {
  body_testMode : option bool;
  body_scanPaths : option scanPaths;
  body_workingFolder : option string;
  body_autoRun : option bool
}.

(** Calls made on the executor. *)
Inductive command : Type := Construct | Start | Stop | ProcessFiles.

(** How the calls into the [Executor] and [DataManager] classes end:
    [Some m] is an exception whose message is [m]; [getAllTools] otherwise
    returns [toolCount] tools. [start] returns a promise whose rejection is
    caught, so it has no entry. *)
Record calls : Type := mkCalls {
  construct_error : option (option string);
  stop_error : option (option string);
  processFiles_error : option (option string);
  getAllTools_error : option (option string);
  toolCount : nat
}.

Inductive response : Type :=
| Ok (testMode autoMode : bool)
| Scanned (toolCount : nat)
| Triggered
| BadRequest
| InternalError (details : string).

(** [error && error['message'] || 'Unknown error'] *)
Definition errMsg (message : option string) : string :=
  JS.str_or message "Unknown error".

(** [if (v) target = v] on a possibly missing string. *)
Definition assign_if (new : option string) (old : option string) : option string :=
  if JS.truthy new then new else old.

(** [POST /api/config] (lines 642-706), its log line aside. *)
Definition postConfig (c : calls) (st : state) (b : body)
    : state * list command * response :=
  match body_testMode b with
  | None => (st, [], BadRequest)
  | Some testMode =>
      let autoRun := default false (body_autoRun b) in
      let cfg' :=
        mkConfig testMode autoRun
          (assign_if (body_workingFolder b) (userDefinedWorkingFolder (cfg st)))
          (assign_if (body_scanPaths b ≫= jsonFiles) (paths_json (cfg st)))
          (assign_if (body_scanPaths b ≫= excelFiles) (paths_excel (cfg st))) in
      if autoRun && negb (executor st) then
        match construct_error c with
        | Some m => (mkState cfg' false, [Construct], InternalError (errMsg m))
        | None => (mkState cfg' true, [Construct; Start], Ok testMode autoRun)
        end
      else if negb autoRun && executor st then
        match stop_error c with
        | Some m => (mkState cfg' true, [Stop], InternalError (errMsg m))
        | None => (mkState cfg' false, [Stop], Ok testMode autoRun)
        end
      else (mkState cfg' (executor st), [], Ok testMode autoRun)
  end.

(** [if (!executor) executor = new Executor(dataManager)] followed by
    [await executor.processFiles()], shared by the two scan handlers: the
    state and the commands so far, and the error that ended them, if any. *)
Definition ensure_and_process (c : calls) (st : state)
    : state * list command * option string :=
  let construct := if executor st then [] else [Construct] in
  match (if executor st then None else construct_error c) with
  | Some m => (st, construct, Some (errMsg m))
  | None =>
      (mkState (cfg st) true, construct ++ [ProcessFiles],
       errMsg <$> processFiles_error c)
  end.

(** [POST /api/scan] (lines 571-598); the text of its message aside. *)
Definition postScan (c : calls) (st : state) : state * list command * response :=
  match ensure_and_process c st with
  | (st', commands, Some details) => (st', commands, InternalError details)
  | (st', commands, None) =>
      match getAllTools_error c with
      | Some m => (st', commands, InternalError (errMsg m))
      | None => (st', commands, Scanned (toolCount c))
      end
  end.

(** [POST /api/trigger-scan] (lines 605-636). *)
Definition postTriggerScan (c : calls) (st : state) : state * list command * response :=
  match ensure_and_process c st with
  | (st', commands, Some details) => (st', commands, InternalError details)
  | (st', commands, None) => (st', commands, Triggered)
  end.

End Server.

(** ** The matrix view when the inventory cannot be read (lines 335-349) *)

(** A processed tool as the fallback reads it: its id and its name. *)
Module ProcessedTool.
Record t : Type := mk {
  id : string;
  name : option string
}.
End ProcessedTool.

(** The record the fallback builds; it has no [codePrefix] and no
    [category]. *)
Module FallbackTool.
Record t : Type := mk {
  toolId : string;
  diameter : Q;
  toolType : string;
  setupTime : Z;
  inPool : Z;
  warningThreshold : Z;
  imageUrl : option string
}.
End FallbackTool.

Definition fallbackTool (tool : ProcessedTool.t) : FallbackTool.t :=
  {| FallbackTool.toolId := ProcessedTool.id tool;
     FallbackTool.diameter := 0%Q;
     FallbackTool.toolType := JS.str_or (ProcessedTool.name tool) "Unknown";
     FallbackTool.setupTime := 0;
     FallbackTool.inPool := 0;
     FallbackTool.warningThreshold := 3;
     FallbackTool.imageUrl := None |}.

Definition fallbackTools (tools : list ProcessedTool.t) : list FallbackTool.t :=
  List.map fallbackTool tools.

(** The callback of [toolsWithUsage] (lines 416-432) on a record of the
    fallback: [tool.codePrefix] is [undefined], so the tool id decides. The
    result is the [usageMinutes] of the merged record. *)
Definition fallbackUsageMinutes (usageMap : gmap string Z) (tool : FallbackTool.t) : Z :=
  let codePattern :=
    match JS.match_RT (FallbackTool.toolId tool) with
    | Some d => d
    | None => EmptyString
    end in
  JS.int_or (usageMap !! codePattern) 0.

(** ** The usage loop over JavaScript numbers (lines 400-413) *)

(** What the loop asks of its numbers: the constant [0], [+], truthiness
    (neither a zero nor [NaN]) and the test [> 0]. *)
Module Num.
Record ops (N : Type) : Type := mk {
  zero : N;
  add : N -> N -> N;
  truthy : N -> bool;
  positive : N -> bool
}.
Arguments mk {N}.
Arguments zero {N}.
Arguments add {N}.
Arguments truthy {N}.
Arguments positive {N}.
End Num.

(** Integer minutes: sums are exact. *)
Definition Z_ops : Num.ops Z :=
  Num.mk 0 Z.add (fun v => negb (v =? 0)) (fun v => 0 <? v).

(** IEEE 754 binary64, the numbers of the source: [+] rounds to nearest,
    ties to even; both zeros and [NaN] are falsy; [NaN > 0] is false. *)
Definition double : Type := spec_float.

Definition double_ops : Num.ops double :=
  Num.mk (S754_zero false) (SFadd 53 1024)
         (fun v => match v with
                   | S754_zero _ | S754_nan => false
                   | _ => true
                   end)
         (fun v => SFltb (S754_zero false) v).

(** A processed tool whose minutes are numbers of type [N]. *)
Module UsageRecordIn.
Record t (N : Type) : Type := mk {
  id : string;
  usageMinutes : option N;
  runningTime : option N
}.
Arguments mk {N}.
Arguments id {N}.
Arguments usageMinutes {N}.
Arguments runningTime {N}.

(** [o || d] *)
Definition num_or {N : Type} (ops : Num.ops N) (o : option N) (d : N) : N :=
  match o with
  | Some v => if Num.truthy ops v then v else d
  | None => d
  end.

(** [a || b], itself possibly missing *)
Definition opt_or {N : Type} (ops : Num.ops N) (a b : option N) : option N :=
  match a with
  | Some v => if Num.truthy ops v then a else b
  | None => b
  end.

(** [tool.usageMinutes || tool.runningTime || 0] *)
Definition minutes {N : Type} (ops : Num.ops N) (tool : t N) : N :=
  num_or ops (opt_or ops (usageMinutes tool) (runningTime tool)) (Num.zero ops).

End UsageRecordIn.

(** One iteration of the loop body, in the arithmetic [ops]. *)
Definition usageMapIn_step {N : Type} (ops : Num.ops N)
    (usageMap : gmap string N) (tool : UsageRecordIn.t N) : gmap string N :=
  let usageMinutes := UsageRecordIn.minutes ops tool in
  if Num.positive ops usageMinutes then
    match JS.match_P (UsageRecordIn.id tool) with
    | Some codePattern =>
        <[codePattern :=
            Num.add ops (UsageRecordIn.num_or ops (usageMap !! codePattern) (Num.zero ops))
                    usageMinutes]> usageMap
    | None => usageMap
    end
  else usageMap.

Definition usageMapIn {N : Type} (ops : Num.ops N)
    (allTools : list (UsageRecordIn.t N)) : gmap string N :=
  fold_left (usageMapIn_step ops) allTools ∅.

(** The family code a record is filed under, if it is filed at all. *)
Definition filed_under {N : Type} (ops : Num.ops N) (tool : UsageRecordIn.t N)
    : gset string :=
  if Num.positive ops (UsageRecordIn.minutes ops tool) then
    match JS.match_P (UsageRecordIn.id tool) with
    | Some codePattern => {[ codePattern ]}
    | None => ∅
    end
  else ∅.

Definition double_0_3 : double := S754_finite false 5404319552844595 (-54).



(** ** Sample data used to evaluate the definitions *)

Definition sample_inventory : list InventoryRow.t :=
  [InventoryRow.mk (Some "RT-8400300") (Some 10);
   InventoryRow.mk (Some "RT-9999300") (Some 4)].

Definition sample_matrix_inventory : list InventoryRow.t :=
  [InventoryRow.mk (Some "RT-8400300") (Some 10);
   InventoryRow.mk (Some "RT-X7620300_1") None].

Definition sample_definitions : gmap string ToolDefinition.t :=
  {[ "RT-8400300" := ToolDefinition.mk (Some 3%Q) (Some 90%Q) (Some "8400");
     "RT-8400300_1" := ToolDefinition.mk (Some 3%Q) (Some 45%Q) None ]}.

Definition sample_usage : list UsageRecord.t :=
  [UsageRecord.mk "FRA-P8201-S15.2R0_H100W16L100X" (Some 45) None].

Definition sample_row_8201 : list InventoryRow.t :=
  [InventoryRow.mk (Some "RT-8201300") (Some 10)].

Definition sample_definitions_8201 : gmap string ToolDefinition.t :=
  {[ "RT-8201300" := ToolDefinition.mk (Some 3%Q) (Some 90%Q) (Some "8201") ]}.

(** A definitions file whose second category has an array index for a name
    and is therefore visited first. *)
Definition sample_categories : list (string * option CategoryDefinition.t) :=
  [("ecut",
    Some (CategoryDefinition.mk (CategoryDefinition.PatternList ["8400"])
            (CategoryDefinition.ToolList
               [Some (ToolEntry.mk (ToolEntry.Code "RT-8400300")
                                   (Some 3%Q) (Some 90%Q) (Some "8400"));
                Some (ToolEntry.mk ToolEntry.Null (Some 7%Q) None None)])));
   ("1",
    Some (CategoryDefinition.mk CategoryDefinition.NoPatterns
            (CategoryDefinition.ToolList
               [Some (ToolEntry.mk (ToolEntry.Code "RT-8400300")
                                   (Some 5%Q) None None)])))].

(** * Properties *)

(** ** Evaluations on the codes of the documentation *)

Example familyCode_RT8400300 : familyCode "RT-8400300" = "8400".
Proof. reflexivity. Qed.

Example familyCode_RT15250391 : familyCode "RT-15250391" = "15250".
Proof. reflexivity. Qed.

Example familyCode_RTX7620300 : familyCode "RT-X7620300" = "7620".
Proof. reflexivity. Qed.

Example match_RT_RT8201300 : JS.match_RT "RT-8201300" = Some "82013".
Proof. reflexivity. Qed.

Example match_P_FRA : JS.match_P "FRA-P8201-S15.2R0_H100W16L100X" = Some "8201".
Proof. reflexivity. Qed.

Example warningThreshold_10 : warningThreshold 10 = 3.
Proof. reflexivity. Qed.

Example category_RT8400300 : category "RT-8400300" = ECUT.
Proof. reflexivity. Qed.

Example usageMap_FRA : usageMap sample_usage !! "8201" = Some 45.
Proof. vm_compute. reflexivity. Qed.

(** ** Facts on the string primitives *)

#[local] Arguments Ascii.eqb : simpl never.
#[local] Set Warnings "-clear-no-such-hyp".

Section StringFacts.

Lemma take_all (n : nat) (s : string) :
  (String.length s <= n)%nat -> JS.take n s = s.
Proof.
  revert n; induction s as [|c s IH]; intros [|n] H; simpl in *; try reflexivity; try lia.
  f_equal. apply IH. lia.
Qed.

Lemma take_length (n : nat) (s : string) :
  String.length (JS.take n s) = Nat.min n (String.length s).
Proof.
  revert n; induction s as [|c s IH]; intros [|n]; simpl; try reflexivity.
  now rewrite IH.
Qed.

Lemma slice0_back3 (s : string) :
  JS.slice0 (-3) s = JS.take (String.length s - 3) s.
Proof.
  unfold JS.slice0. change (-3 <? 0) with true. cbv iota.
  f_equal. lia.
Qed.

Lemma slice0_front4 (s : string) : JS.slice0 4 s = JS.take 4 s.
Proof.
  unfold JS.slice0. change (4 <? 0) with false. cbv iota.
  destruct (Nat.le_gt_cases 4 (String.length s)) as [H|H].
  - f_equal. lia.
  - rewrite (take_all 4) by lia.
    apply take_all. lia.
Qed.

Lemma all_chars_impl (P R : ascii -> bool) (s : string) :
  (forall c, P c = true -> R c = true) ->
  JS.all_chars P s = true -> JS.all_chars R s = true.
Proof.
  intros HPR. induction s as [|c s IH]; simpl; [reflexivity|].
  rewrite !andb_true_iff. intros [Hc Hs]. split; auto.
Qed.

Lemma all_digits_chars (s : string) : JS.all_digits s = JS.all_chars JS.is_digit s.
Proof. induction s as [|c s IH]; simpl; [reflexivity|]. now rewrite IH. Qed.

(** A string without [R] has no occurrence of [RT-] to remove. *)
Lemma replace_first_empty_no_R (s : string) :
  JS.all_chars (fun c => negb (Ascii.eqb c "R")) s = true ->
  JS.replace_first_empty "RT-" s = s.
Proof.
  induction s as [|c s IH]; simpl; [reflexivity|].
  rewrite andb_true_iff, negb_true_iff. intros [Hc Hs].
  rewrite Ascii.eqb_sym, Hc. f_equal. apply IH, Hs.
Qed.

Lemma replace_first_empty_prefix (s : string) :
  JS.startsWith s "RT-" = true -> JS.replace_first_empty "RT-" s = JS.drop 3 s.
Proof. intros H. destruct s as [|c s]; simpl in *; [discriminate|]. now rewrite H. Qed.

(** Cutting at the first underscore, and what is cut. *)
Lemma split_head_no_sep (sep : ascii) (s : string) :
  JS.all_chars (fun c => negb (Ascii.eqb c sep)) (JS.split_head sep s) = true.
Proof.
  induction s as [|c s IH]; simpl; [reflexivity|].
  destruct (Ascii.eqb c sep) eqn:E; simpl; [reflexivity|].
  now rewrite E, IH.
Qed.

Lemma split_head_decompose (sep : ascii) (s : string) :
  s = JS.split_head sep s \/ exists rest, s = JS.split_head sep s +:+ String sep rest.
Proof.
  induction s as [|c s IH]; simpl; [now left|].
  destruct (Ascii.eqb c sep) eqn:E.
  - apply Ascii.eqb_eq in E. subst c. right. now exists s.
  - destruct IH as [IH | [rest IH]].
    + left. now f_equal.
    + right. exists rest. unfold String.app. simpl. now f_equal.
Qed.

End StringFacts.

(** ** The family code of a matrix code *)

Section FamilyCode.

Lemma strip_feed_other (c : ascii) (s : string) :
  Ascii.eqb c "X" = false -> Spec.strip_feed (String c s) = String c s.
Proof.
  destruct c as [[] [] [] [] [] [] [] []]; intros H; try reflexivity.
  discriminate H.
Qed.

(** The [startsWith]/[substring] pair of the source removes one leading
    [X], as the specification words it. *)
Lemma strip_feed_code (s : string) :
  (if JS.startsWith s "X" then JS.substring_from1 s else s) = Spec.strip_feed s.
Proof.
  destruct s as [|c s]; [reflexivity|].
  simpl JS.startsWith. rewrite Ascii.eqb_sym.
  destruct (Ascii.eqb c "X") eqn:E.
  - apply Ascii.eqb_eq in E. subst c. reflexivity.
  - now rewrite strip_feed_other.
Qed.

Lemma strip_feed_chars (s : string) :
  JS.all_digits (Spec.strip_feed s) = true -> JS.all_chars JS.digit_or_X s = true.
Proof.
  destruct s as [|c s]; [reflexivity|].
  destruct (Ascii.eqb c "X") eqn:E.
  - apply Ascii.eqb_eq in E. subst c. cbn [Spec.strip_feed].
    rewrite all_digits_chars. intros H. cbn [JS.all_chars].
    apply andb_true_iff. split; [reflexivity|].
    eapply all_chars_impl; [|exact H].
    intros c Hc. unfold JS.digit_or_X. now rewrite Hc.
  - rewrite strip_feed_other by exact E.
    rewrite all_digits_chars. apply all_chars_impl.
    intros c' Hc. unfold JS.digit_or_X. now rewrite Hc.
Qed.

Lemma strip_variant_chars (P : ascii -> bool) (s : string) :
  P "_"%char = true ->
  (forall c, JS.is_digit c = true -> P c = true) ->
  JS.all_chars P (Spec.strip_variant s) = true -> JS.all_chars P s = true.
Proof.
  intros Hu Hd. induction s as [|c s IH]; [reflexivity|].
  cbn [Spec.strip_variant].
  destruct (Ascii.eqb c "_" && Spec.nonempty_digits s) eqn:E.
  - apply andb_true_iff in E as [Ec Es]. apply Ascii.eqb_eq in Ec. subst c.
    intros _. cbn [JS.all_chars]. rewrite Hu. simpl.
    destruct s as [|d s]; [discriminate|]. cbn [Spec.nonempty_digits] in Es.
    rewrite all_digits_chars in Es. eapply all_chars_impl; [exact Hd|exact Es].
  - cbn [JS.all_chars]. rewrite !andb_true_iff. intros [Hc Hs]. auto.
Qed.

(** When nothing but the variant suffix held an underscore, cutting at the
    first underscore removes exactly that suffix. *)
Lemma split_head_strip_variant (s : string) :
  JS.all_chars (fun c => negb (Ascii.eqb c "_")) (Spec.strip_variant s) = true ->
  JS.split_head "_" s = Spec.strip_variant s.
Proof.
  induction s as [|c s IH]; [reflexivity|].
  cbn [Spec.strip_variant JS.split_head].
  destruct (Ascii.eqb c "_") eqn:E; cbn [andb].
  - destruct (Spec.nonempty_digits s); [reflexivity|].
    cbn [JS.all_chars]. rewrite E. discriminate.
  - cbn [JS.all_chars]. rewrite E. cbn [negb andb]. intros H. f_equal. auto.
Qed.

Lemma code_char_not_underscore (c : ascii) :
  JS.digit_or_X c = true -> negb (Ascii.eqb c "_") = true.
Proof. destruct c as [[] [] [] [] [] [] [] []]; intros H; try reflexivity; discriminate H. Qed.

Lemma code_char_not_R (c : ascii) :
  JS.digit_or_X c || Ascii.eqb c "_" = true -> negb (Ascii.eqb c "R") = true.
Proof. destruct c as [[] [] [] [] [] [] [] []]; intros H; try reflexivity; discriminate H. Qed.

(** On a code whose remainder is a digit string, the source's [replace],
    [split] and [substring] compute the remainder of the specification. *)
Lemma cleaned_remaining (toolCode : string) :
  JS.all_digits (Spec.remaining toolCode) = true ->
  cleaned toolCode = Spec.remaining toolCode.
Proof.
  unfold Spec.remaining, cleaned. intros H.
  apply strip_feed_chars in H.
  assert (Hall : JS.all_chars (fun c => JS.digit_or_X c || Ascii.eqb c "_")
                   (Spec.strip_prefix toolCode) = true).
  { apply strip_variant_chars.
    - reflexivity.
    - intros c Hc. unfold JS.digit_or_X. now rewrite Hc.
    - eapply all_chars_impl; [|exact H]. intros c Hc. now rewrite Hc. }
  assert (Hrep : JS.replace_first_empty "RT-" toolCode = Spec.strip_prefix toolCode).
  { unfold Spec.strip_prefix in *. destruct (JS.startsWith toolCode "RT-") eqn:E.
    - now apply replace_first_empty_prefix.
    - apply replace_first_empty_no_R.
      eapply all_chars_impl; [|exact Hall]. exact code_char_not_R. }
  cbv zeta. rewrite Hrep, strip_feed_code. f_equal.
  apply split_head_strip_variant.
  eapply all_chars_impl; [|exact H]. exact code_char_not_underscore.
Qed.

Lemma code_length_rule (s : string) :
  (if (6 <=? String.length s)%nat then JS.slice0 (-3) s else JS.slice0 4 s)
  = Spec.length_rule s.
Proof. unfold Spec.length_rule. now rewrite slice0_back3, slice0_front4. Qed.

End FamilyCode.

(** C1. Family-code extraction. For every tool-code string whose remainder
    -- after stripping the [RT-] prefix, a [_<digits>] variant suffix and one
    leading [X] -- is a digit string, the family code computed by
    [getImageUrl] is that digit string without its last 3 digits when it has
    at least 6, and its first 4 digits otherwise; the image URL of a
    non-empty code embeds it. [RT-8400300] gives [8400] and [RT-X7620300]
    gives [7620]. *)
Theorem familyCode_length_rule :
  (forall toolCode : string, familyCode toolCode = Spec.length_rule (cleaned toolCode))
  /\ (forall toolCode : string,
      JS.all_digits (Spec.remaining toolCode) = true ->
      familyCode toolCode = Spec.length_rule (Spec.remaining toolCode) /\
      (toolCode <> EmptyString ->
       getImageUrl (Some toolCode) =
       Some ("/api/images/tools/" +:+ Spec.length_rule (Spec.remaining toolCode) +:+ ".png")))
  /\ familyCode "RT-8400300" = "8400"
  /\ familyCode "RT-X7620300" = "7620".
Proof.
  split; [intros toolCode; apply code_length_rule|].
  split; [|split; reflexivity].
  intros toolCode H.
  assert (Hf : familyCode toolCode = Spec.length_rule (Spec.remaining toolCode)).
  { unfold familyCode. cbv zeta. rewrite code_length_rule.
    now rewrite cleaned_remaining. }
  split; [exact Hf|].
  intros Hne. destruct toolCode as [|c s]; [congruence|].
  unfold getImageUrl. cbn [JS.truthy negb]. now rewrite Hf.
Qed.

Lemma familyCode_length_rule_witness :
  JS.all_digits (Spec.remaining "RT-15250391_2") = true /\
  familyCode "RT-15250391_2" = "15250" /\
  getImageUrl (Some "RT-15250391_2") = Some "/api/images/tools/15250.png".
Proof.
  split; [reflexivity|].
  destruct (proj1 (proj2 familyCode_length_rule) "RT-15250391_2" eq_refl) as [Hf Hu].
  split; [exact Hf|].
  apply Hu. discriminate.
Defined.

(** ** Category classification *)

Section Classification.

Lemma classify_first_match (code : string) (pre post : list (list string * Category))
    (e : list string * Category) :
  Forall (fun e' => Spec.entry_matches code e' = false) pre ->
  Spec.entry_matches code e = true ->
  Spec.classify (pre ++ e :: post) code = snd e.
Proof.
  intros Hpre He. induction Hpre as [|e' pre He' _ IH]; simpl.
  - now rewrite He.
  - now rewrite He'.
Qed.

Lemma classify_no_match (code : string) (table : list (list string * Category)) :
  Forall (fun e' => Spec.entry_matches code e' = false) table ->
  Spec.classify table code = OTHER.
Proof.
  induction 1 as [|e' table He' _ IH]; simpl; [reflexivity|].
  now rewrite He'.
Qed.

(** The [if]/[else if] chain of the source is the table, read in order. *)
Lemma category_classify (code : string) :
  category code = Spec.classify Spec.category_table code.
Proof.
  unfold category, Spec.classify, Spec.category_table, Spec.entry_matches.
  cbn [fst snd existsb].
  rewrite !orb_false_r, <- !orb_assoc.
  reflexivity.
Qed.

End Classification.

(** C5. Category classification is total and first-match-wins: the category
    of a code is the one of the first entry of the ordered table
    ECUT, MFC, XF, XFEED one of whose substrings the code contains, and
    OTHER when no entry matches; every code has one of the five
    categories. *)
Theorem category_total_first_match (code : string) :
  category code = Spec.classify Spec.category_table code
  /\ In (category code) [ECUT; MFC; XF; XFEED; OTHER]
  /\ (forall pre e post,
         Spec.category_table = pre ++ e :: post ->
         Forall (fun e' => Spec.entry_matches code e' = false) pre ->
         Spec.entry_matches code e = true ->
         category code = snd e)
  /\ (Forall (fun e' => Spec.entry_matches code e' = false) Spec.category_table ->
      category code = OTHER).
Proof.
  split; [apply category_classify|]. split.
  { destruct (category code); simpl; auto 6. }
  split.
  - intros pre e post Ht Hpre He.
    rewrite category_classify, Ht. now apply classify_first_match.
  - intros H. rewrite category_classify. now apply classify_no_match.
Qed.

Lemma category_total_first_match_witness :
  Spec.entry_matches "RT-82018400" (["8201"; "8211"; "8221"], MFC) = true /\
  category "RT-82018400" = ECUT /\ category "RT-8201300" = MFC /\
  category "RT-9999300" = OTHER.
Proof.
  split; [reflexivity|]. split; [|split].
  - apply (proj1 (proj2 (proj2 (category_total_first_match "RT-82018400")))
             []
             (["8400"; "8410"; "8420"], ECUT)
             [(["8201"; "8211"; "8221"], MFC);
              (["1525"; "8521"], XF); (["7620"; "7624"], XFEED)]).
    + reflexivity.
    + constructor.
    + reflexivity.
  - apply (proj1 (proj2 (proj2 (category_total_first_match "RT-8201300")))
             [(["8400"; "8410"; "8420"], ECUT)]
             (["8201"; "8211"; "8221"], MFC)
             [(["1525"; "8521"], XF); (["7620"; "7624"], XFEED)]).
    + reflexivity.
    + repeat constructor.
    + reflexivity.
  - apply (proj2 (proj2 (proj2 (category_total_first_match "RT-9999300")))).
    repeat constructor.
Defined.

(** ** The dashboard transform *)

Section Transform.

Variable baseDiameters : gmap string ToolDefinition.t.

(** The floor of three tenths of an integer stock count. *)
Lemma floor_three_tenths (q : Z) : Qfloor (inject_Z q * 0.3) = (q * 3) / 10.
Proof. reflexivity. Qed.

Lemma toMatrixTool_inPool (tool : InventoryRow.t) :
  MatrixTool.inPool (toMatrixTool baseDiameters tool)
  = JS.int_or (InventoryRow.quantity tool) 0.
Proof. reflexivity. Qed.

Lemma toMatrixTool_warningThreshold (tool : InventoryRow.t) :
  MatrixTool.warningThreshold (toMatrixTool baseDiameters tool)
  = Z.max 3 (Qfloor (inject_Z (MatrixTool.inPool (toMatrixTool baseDiameters tool)) * 0.3)).
Proof. reflexivity. Qed.

Lemma toMatrixTool_toolId (tool : InventoryRow.t) :
  MatrixTool.toolId (toMatrixTool baseDiameters tool) = InventoryRow.toolCode tool.
Proof. reflexivity. Qed.

(** The codes of the transformed rows are the codes of the filtered rows. *)
Lemma matrixTools_toolIds (patterns : list string) (inventory : list InventoryRow.t) :
  List.map MatrixTool.toolId (matrixTools patterns baseDiameters inventory)
  = List.map InventoryRow.toolCode (filteredTools patterns inventory).
Proof.
  unfold matrixTools. rewrite List.map_map.
  apply List.map_ext. intros tool. apply toMatrixTool_toolId.
Qed.

Lemma filteredTools_all (patterns : list string) (inventory : list InventoryRow.t) :
  forallb (is_matrix_row patterns) inventory = true ->
  filteredTools patterns inventory = inventory.
Proof.
  unfold filteredTools. induction inventory as [|tool inventory IH]; simpl; [reflexivity|].
  rewrite andb_true_iff. intros [Ht Hi]. rewrite Ht. f_equal. auto.
Qed.

Lemma filter_map_commute {A B : Type} (f : A -> B) (p : B -> bool) (l : list A) :
  List.filter p (List.map f l) = List.map f (List.filter (fun a => p (f a)) l).
Proof.
  induction l as [|a l IH]; simpl; [reflexivity|].
  destruct (p (f a)); simpl; now rewrite IH.
Qed.

Lemma filter_sublist_of {A : Type} (p : A -> bool) (l : list A) :
  sublist (List.filter p l) l.
Proof.
  induction l as [|a l IH]; simpl; [constructor|].
  destruct (p a); now constructor.
Qed.

End Transform.

(** C6. Every tool of the matrix view carries the warning threshold
    [max(3, floor(inPool * 0.3))] of its own stock count, the stock count is
    the quantity of the inventory row it was built from (0 when the row has
    none), and the threshold is computed anew from the row each time the
    view is built; a quantity of 10 gives the threshold 3. *)
Theorem warningThreshold_of_inPool
    (patterns : list string) (baseDiameters : gmap string ToolDefinition.t)
    (inventory : list InventoryRow.t) :
  Forall (fun t => MatrixTool.warningThreshold t
                   = Z.max 3 (Qfloor (inject_Z (MatrixTool.inPool t) * 0.3)))
         (matrixTools patterns baseDiameters inventory)
  /\ List.map MatrixTool.inPool (matrixTools patterns baseDiameters inventory)
     = List.map (fun row => JS.int_or (InventoryRow.quantity row) 0)
                (filteredTools patterns inventory)
  /\ (forall (code : option string) (quantity : Z),
         let t := toMatrixTool baseDiameters (InventoryRow.mk code (Some quantity)) in
         MatrixTool.inPool t = quantity /\
         MatrixTool.warningThreshold t = Z.max 3 ((quantity * 3) / 10))
  /\ (forall code : option string,
         MatrixTool.warningThreshold
           (toMatrixTool baseDiameters (InventoryRow.mk code (Some 10))) = 3).
Proof.
  split; [|split; [|split]].
  - unfold matrixTools. apply List.Forall_forall. intros t Ht.
    apply List.in_map_iff in Ht as [row [<- _]].
    apply toMatrixTool_warningThreshold.
  - unfold matrixTools. rewrite List.map_map. reflexivity.
  - intros code quantity t. subst t.
    rewrite toMatrixTool_warningThreshold, toMatrixTool_inPool.
    cbn [InventoryRow.quantity JS.int_or].
    destruct (quantity =? 0) eqn:E.
    + apply Z.eqb_eq in E. subst quantity. split; reflexivity.
    + split; [reflexivity|]. now rewrite floor_three_tenths.
  - intros code. reflexivity.
Qed.

(** C7. Normalisation is total, and a missing or empty code yields the
    neutral record: [getToolData] returns diameter 0, tool life 0 and the
    empty stored family code, the category is OTHER, and no image URL (no
    derived family code) is produced. *)
Theorem normalization_neutral_on_empty
    (baseDiameters : gmap string ToolDefinition.t) (toolCode : option string) :
  (exists data, getToolData baseDiameters toolCode = data)
  /\ (exists c, category (JS.str_or toolCode EmptyString) = c /\ In c [ECUT; MFC; XF; XFEED; OTHER])
  /\ (toolCode = None \/ toolCode = Some EmptyString ->
      getToolData baseDiameters toolCode = ToolData.mk 0%Q 0%Q EmptyString
      /\ category (JS.str_or toolCode EmptyString) = OTHER
      /\ familyCode (JS.str_or toolCode EmptyString) = EmptyString
      /\ getImageUrl toolCode = None
      /\ forall quantity,
           let t := toMatrixTool baseDiameters (InventoryRow.mk toolCode quantity) in
           MatrixTool.codePrefix t = EmptyString /\ MatrixTool.category t = OTHER /\
           MatrixTool.diameter t = 0%Q /\ MatrixTool.toolLife t = 0%Q /\
           MatrixTool.imageUrl t = None).
Proof.
  split; [eexists; reflexivity|]. split.
  { eexists; split; [reflexivity|]. destruct (category _); simpl; auto 6. }
  intros [-> | ->]; repeat split; reflexivity.
Qed.

Lemma normalization_neutral_on_empty_witness :
  getToolData {[ EmptyString := ToolDefinition.mk (Some 5.7%Q) (Some 120%Q) (Some "8400") ]} (Some EmptyString)
  = ToolData.mk 0%Q 0%Q EmptyString.
Proof.
  apply (proj2 (proj2 (normalization_neutral_on_empty
                         {[ EmptyString := ToolDefinition.mk (Some 5.7%Q) (Some 120%Q) (Some "8400") ]}
                         (Some EmptyString)))).
  right. reflexivity.
Defined.

(** ** Loading an inventory snapshot *)

(** A snapshot row whose code contains none of the matrix code patterns is
    not part of the matrix view. *)
Lemma matrixTools_drops_unmatched_codes :
  List.map InventoryRow.toolCode sample_inventory = [Some "RT-8400300"; Some "RT-9999300"]
  /\ List.map MatrixTool.toolId (matrixTools default_matrixCodePatterns ∅ sample_inventory)
     = [Some "RT-8400300"]
  /\ List.map MatrixTool.toolId (matrixTools default_matrixCodePatterns ∅ sample_inventory)
     <> List.map InventoryRow.toolCode sample_inventory.
Proof. split; [reflexivity|]. split; [reflexivity|]. vm_compute. discriminate. Qed.

(** C8, as the source has it. Loading a snapshot and reading the matrix view
    back returns, in load order, exactly the codes of the snapshot that
    contain at least one matrix code pattern: no code is added, a code
    containing no pattern is left out, and nothing is left out of a snapshot
    whose codes all contain a pattern. *)
Theorem matrixTools_codes_in_load_order
    (patterns : list string) (baseDiameters : gmap string ToolDefinition.t)
    (inventory : list InventoryRow.t) :
  List.map MatrixTool.toolId (matrixTools patterns baseDiameters inventory)
  = List.filter (fun code => existsb (fun pattern => JS.includes (JS.str_or code EmptyString) pattern) patterns)
                (List.map InventoryRow.toolCode inventory)
  /\ sublist (List.map MatrixTool.toolId (matrixTools patterns baseDiameters inventory))
             (List.map InventoryRow.toolCode inventory)
  /\ (forallb (is_matrix_row patterns) inventory = true ->
      List.map MatrixTool.toolId (matrixTools patterns baseDiameters inventory)
      = List.map InventoryRow.toolCode inventory).
Proof.
  assert (Heq : List.map MatrixTool.toolId (matrixTools patterns baseDiameters inventory)
                = List.filter (fun code => existsb (fun pattern =>
                                  JS.includes (JS.str_or code EmptyString) pattern) patterns)
                              (List.map InventoryRow.toolCode inventory)).
  { rewrite matrixTools_toolIds, filter_map_commute. reflexivity. }
  split; [exact Heq|]. split.
  - rewrite Heq. apply filter_sublist_of.
  - intros Hall. rewrite matrixTools_toolIds. now rewrite filteredTools_all.
Qed.

Lemma matrixTools_codes_in_load_order_witness :
  List.map MatrixTool.toolId
    (matrixTools default_matrixCodePatterns ∅ sample_matrix_inventory)
  = [Some "RT-8400300"; Some "RT-X7620300_1"].
Proof.
  apply (proj2 (proj2 (matrixTools_codes_in_load_order default_matrixCodePatterns ∅
                         sample_matrix_inventory))).
  reflexivity.
Defined.

(** ** Lookup of the tool definitions *)

(** C10. Lookup precedence of [getToolData]: for a non-empty code an entry
    under the full code, variant suffix included, decides; only without one
    does the entry under the base code -- the code cut at its first
    underscore -- decide; without either the neutral data (diameter 0, tool
    life 0, empty code prefix) is returned. *)
Theorem getToolData_precedence
    (baseDiameters : gmap string ToolDefinition.t) (toolCode : string) :
  toolCode <> EmptyString ->
  let baseCode := JS.split_head "_" toolCode in
  (forall d, baseDiameters !! toolCode = Some d ->
             getToolData baseDiameters (Some toolCode) = ToolData.of_definition d)
  /\ (forall d, baseDiameters !! toolCode = None -> baseDiameters !! baseCode = Some d ->
                getToolData baseDiameters (Some toolCode) = ToolData.of_definition d)
  /\ (baseDiameters !! toolCode = None -> baseDiameters !! baseCode = None ->
      getToolData baseDiameters (Some toolCode) = ToolData.mk 0%Q 0%Q EmptyString)
  /\ JS.all_chars (fun c => negb (Ascii.eqb c "_")) baseCode = true
  /\ (toolCode = baseCode \/ exists rest, toolCode = baseCode +:+ String "_" rest).
Proof.
  intros Hne baseCode.
  assert (Hget : getToolData baseDiameters (Some toolCode)
                 = match baseDiameters !! toolCode with
                   | Some d => ToolData.of_definition d
                   | None => match baseDiameters !! baseCode with
                             | Some d => ToolData.of_definition d
                             | None => ToolData.neutral
                             end
                   end).
  { destruct toolCode as [|c s]; [congruence|]. reflexivity. }
  split; [|split; [|split; [|split]]].
  - intros d Hd. now rewrite Hget, Hd.
  - intros d Hn Hd. now rewrite Hget, Hn, Hd.
  - intros Hn Hb. now rewrite Hget, Hn, Hb.
  - apply split_head_no_sep.
  - apply split_head_decompose.
Qed.

Lemma getToolData_precedence_witness :
  getToolData sample_definitions (Some "RT-8400300_1") = ToolData.mk 3%Q 45%Q EmptyString
  /\ getToolData sample_definitions (Some "RT-8400300_2") = ToolData.mk 3%Q 90%Q "8400"
  /\ getToolData sample_definitions (Some "RT-8410300_2") = ToolData.mk 0%Q 0%Q EmptyString.
Proof.
  split; [|split].
  - apply (proj1 (getToolData_precedence sample_definitions "RT-8400300_1"
                    ltac:(discriminate))
             (ToolDefinition.mk (Some 3%Q) (Some 45%Q) None)).
    vm_compute. reflexivity.
  - apply (proj1 (proj2 (getToolData_precedence sample_definitions "RT-8400300_2"
                           ltac:(discriminate)))
             (ToolDefinition.mk (Some 3%Q) (Some 90%Q) (Some "8400"))).
    + vm_compute. reflexivity.
    + vm_compute. reflexivity.
  - apply (proj1 (proj2 (proj2 (getToolData_precedence sample_definitions "RT-8410300_2"
                                  ltac:(discriminate))))).
    + vm_compute. reflexivity.
    + vm_compute. reflexivity.
Defined.

(** ** The Tool entity *)

Section ToolStateMachine.

Lemma receive_other (tl : Tool.t) (e : UsageEvent.t) :
  UsageEvent.tool e <> Tool.matrixCode tl -> Tool.receive tl e = tl.
Proof.
  intros Hne. unfold Tool.receive.
  destruct (String.eqb_spec (UsageEvent.tool e) (Tool.matrixCode tl)); [contradiction|].
  reflexivity.
Qed.

Lemma run_unnamed (tl : Tool.t) (events : list UsageEvent.t) :
  Forall (fun e => UsageEvent.tool e <> Tool.matrixCode tl) events ->
  Tool.run tl events = tl.
Proof.
  unfold Tool.run. induction 1 as [|e events He _ IH]; simpl; [reflexivity|].
  now rewrite receive_other.
Qed.

Lemma transition_total (s : ToolState.t) (claimed : bool) :
  Tool.transition s claimed = ToolState.FREE \/ Tool.transition s claimed = ToolState.IN_USE.
Proof. destruct claimed; simpl; auto. Qed.

End ToolStateMachine.

(** C9. A newly constructed Tool is FREE, one of the two states FREE and
    IN_USE, and has an empty usage history; as long as no usage event names
    it, it stays FREE with an empty history. *)
Theorem new_tool_is_free
    (matrixCode : string) (diameter : option Q) (description : option string)
    (events : list UsageEvent.t) :
  Forall (fun e => UsageEvent.tool e <> matrixCode) events ->
  Tool.toolState (Tool.new matrixCode diameter description) = ToolState.FREE
  /\ Tool.usageHistory (Tool.new matrixCode diameter description) = []
  /\ (forall s : ToolState.t, s = ToolState.FREE \/ s = ToolState.IN_USE)
  /\ Tool.toolState (Tool.run (Tool.new matrixCode diameter description) events)
     = ToolState.FREE
  /\ Tool.usageHistory (Tool.run (Tool.new matrixCode diameter description) events) = [].
Proof.
  intros Hev. split; [reflexivity|]. split; [reflexivity|]. split.
  { intros []; auto. }
  rewrite run_unnamed by exact Hev. split; reflexivity.
Qed.

Lemma new_tool_is_free_witness :
  Tool.toolState
    (Tool.run (Tool.new "RT-8400300" None None)
              [UsageEvent.mk "RT-8201300" true; UsageEvent.mk "RT-8201300" false])
  = ToolState.FREE.
Proof.
  apply (new_tool_is_free "RT-8400300" None None
           [UsageEvent.mk "RT-8201300" true; UsageEvent.mk "RT-8201300" false]).
  repeat constructor; discriminate.
Defined.

Example claimed_tool_in_use :
  Tool.toolState (Tool.run (Tool.new "RT-8400300" None None)
                           [UsageEvent.mk "RT-8400300" true]) = ToolState.IN_USE.
Proof. reflexivity. Qed.

(** ** The marker of an operational identifier *)

Section Marker.

Lemma app_cons (c : ascii) (s t : string) : String c s +:+ t = String c (s +:+ t).
Proof. reflexivity. Qed.

Lemma app_empty (t : string) : EmptyString +:+ t = t.
Proof. reflexivity. Qed.

(** What the greedy digit run returns is a digit prefix of the string, no
    longer than asked for. *)
Lemma leading_digits_prefix (n : nat) (s : string) :
  exists post,
    s = JS.leading_digits n s +:+ post /\
    JS.all_digits (JS.leading_digits n s) = true /\
    (String.length (JS.leading_digits n s) <= n)%nat.
Proof.
  revert s; induction n as [|n IH]; intros s.
  - exists s. destruct s; repeat split; simpl; lia.
  - destruct s as [|c s]; [exists EmptyString; repeat split; simpl; lia|].
    cbn [JS.leading_digits]. destruct (JS.is_digit c) eqn:Hc.
    + destruct (IH s) as (post & Hs & Hd & Hl). exists post.
      rewrite app_cons, <- Hs. cbn [JS.all_digits String.length]. rewrite Hc, Hd.
      repeat split. lia.
    + exists (String c s). repeat split. simpl. lia.
Qed.

Lemma digits_4_5_capture (s k : string) :
  JS.digits_4_5 s = Some k ->
  exists post, s = k +:+ post /\ JS.all_digits k = true /\
               (4 <= String.length k <= 5)%nat.
Proof.
  unfold JS.digits_4_5. cbv zeta.
  destruct (4 <=? String.length (JS.leading_digits 5 s))%nat eqn:E; [|discriminate].
  intros [= <-]. apply Nat.leb_le in E.
  destruct (leading_digits_prefix 5 s) as (post & Hs & Hd & Hl).
  exists post. repeat split; assumption.
Qed.

(** Four digits at the head of a string are enough for [\d{4,5}]. *)
Lemma digits_4_5_four (d post : string) :
  String.length d = 4%nat -> JS.all_digits d = true ->
  exists k, JS.digits_4_5 (d +:+ post) = Some k.
Proof.
  destruct d as [|c1 [|c2 [|c3 [|c4 [|c5 d]]]]]; try discriminate.
  intros _. cbn [JS.all_digits]. rewrite !andb_true_iff.
  intros (H1 & H2 & H3 & H4 & _).
  unfold JS.digits_4_5. rewrite !app_cons, app_empty.
  cbn [JS.leading_digits]. rewrite H1, H2, H3, H4.
  destruct post as [|c post]; [eexists; reflexivity|].
  destruct (JS.is_digit c); eexists; reflexivity.
Qed.

Lemma digits_4_5_head (s k : string) :
  JS.digits_4_5 s = Some k ->
  exists d post, s = d +:+ post /\ String.length d = 4%nat /\ JS.all_digits d = true.
Proof.
  unfold JS.digits_4_5. cbv zeta.
  destruct s as [|c1 [|c2 [|c3 [|c4 s]]]]; cbn [JS.leading_digits];
    repeat (match goal with
            | |- context [JS.is_digit ?c] => destruct (JS.is_digit c) eqn:?
            end; cbn [String.length Nat.leb]); try discriminate.
  intros _. exists (String c1 (String c2 (String c3 (String c4 EmptyString)))), s.
  cbn [JS.all_digits]. repeat split.
  repeat match goal with H : JS.is_digit _ = true |- _ => rewrite H; clear H end.
  reflexivity.
Qed.

(** The regular expression finds a match exactly when the identifier
    holds the marker. *)
Lemma match_P_marker (id : string) :
  Spec.has_marker id <-> exists k, JS.match_P id = Some k.
Proof.
  split.
  - intros (pre & d & post & -> & Hl & Hd).
    induction pre as [|c pre IH].
    + rewrite app_empty. cbn [JS.match_P]. rewrite Ascii.eqb_refl.
      destruct (digits_4_5_four d post Hl Hd) as [k ->]. now exists k.
    + rewrite app_cons. cbn [JS.match_P].
      destruct (Ascii.eqb c "P"); [|exact IH].
      destruct (JS.digits_4_5 _) as [k|]; [now exists k|exact IH].
  - induction id as [|c id IH]; intros [k Hk]; [discriminate|].
    cbn [JS.match_P] in Hk.
    assert (Hrest : (exists k', JS.match_P id = Some k') -> Spec.has_marker (String c id)).
    { intros H. destruct (IH H) as (pre & d & post & -> & Hl & Hd).
      exists (String c pre), d, post. now rewrite app_cons. }
    destruct (Ascii.eqb c "P") eqn:Ec; [|eauto].
    destruct (JS.digits_4_5 id) as [k'|] eqn:Ed; [|eauto].
    apply Ascii.eqb_eq in Ec. subst c.
    destruct (digits_4_5_head id k' Ed) as (d & post & -> & Hl & Hd).
    exists EmptyString, d, post. now rewrite app_empty.
Qed.

Lemma match_P_no_marker (id : string) :
  ~ Spec.has_marker id -> JS.match_P id = None.
Proof.
  intros H. destruct (JS.match_P id) as [k|] eqn:E; [|reflexivity].
  exfalso. apply H, match_P_marker. now exists k.
Qed.

(** The capture is a run of four or five digits right after a [P]. *)
Lemma match_P_capture (id k : string) :
  JS.match_P id = Some k ->
  exists pre post, id = pre +:+ String "P" (k +:+ post) /\
                   JS.all_digits k = true /\ (4 <= String.length k <= 5)%nat.
Proof.
  induction id as [|c id IH]; [discriminate|].
  cbn [JS.match_P]. intros Hk.
  assert (Hrest : JS.match_P id = Some k ->
                  exists pre post, String c id = pre +:+ String "P" (k +:+ post) /\
                    JS.all_digits k = true /\ (4 <= String.length k <= 5)%nat).
  { intros H. destruct (IH H) as (pre & post & -> & Hd & Hl).
    exists (String c pre), post. now rewrite app_cons. }
  destruct (Ascii.eqb c "P") eqn:Ec; [|auto].
  destruct (JS.digits_4_5 id) as [k'|] eqn:Ed; [|auto].
  injection Hk as ->. apply Ascii.eqb_eq in Ec. subst c.
  destruct (digits_4_5_capture id k Ed) as (post & -> & Hd & Hl).
  exists EmptyString, post. now rewrite app_empty.
Qed.

End Marker.

(** ** Usage aggregation *)

Section Aggregation.

Implicit Types (m : gmap string Z) (r : UsageRecord.t) (rs : list UsageRecord.t).

Lemma int_or_default (o : option Z) : JS.int_or o 0 = default 0 o.
Proof.
  destruct o as [v|]; simpl; [|reflexivity].
  destruct (v =? 0) eqn:E; [|reflexivity].
  apply Z.eqb_eq in E. now subst v.
Qed.

(** The loop body, by cases. *)
Lemma usageMap_step_skip m r :
  UsageRecord.minutes r <= 0 \/ JS.match_P (UsageRecord.id r) = None ->
  usageMap_step m r = m.
Proof.
  unfold usageMap_step. cbv zeta. intros [H|H].
  - destruct (0 <? UsageRecord.minutes r) eqn:E; [|reflexivity].
    apply Z.ltb_lt in E. lia.
  - rewrite H. now destruct (0 <? UsageRecord.minutes r).
Qed.

Lemma usageMap_step_add m r (k : string) :
  0 < UsageRecord.minutes r -> JS.match_P (UsageRecord.id r) = Some k ->
  usageMap_step m r = <[k := default 0 (m !! k) + UsageRecord.minutes r]> m.
Proof.
  unfold usageMap_step. cbv zeta. intros Hpos Hk.
  apply Z.ltb_lt in Hpos. now rewrite Hpos, Hk, int_or_default.
Qed.

Lemma attributed_spec (k : string) r :
  Spec.attributed k r = true <->
  0 < UsageRecord.minutes r /\ JS.match_P (UsageRecord.id r) = Some k.
Proof.
  unfold Spec.attributed. rewrite andb_true_iff, Z.ltb_lt, bool_decide_eq_true.
  reflexivity.
Qed.

Lemma usageMap_step_lookup m r (k : string) :
  usageMap_step m r !! k =
  if Spec.attributed k r then Some (default 0 (m !! k) + UsageRecord.minutes r)
  else m !! k.
Proof.
  destruct (Spec.attributed k r) eqn:E.
  - apply attributed_spec in E as [Hpos Hk].
    rewrite (usageMap_step_add m r k Hpos Hk). apply lookup_insert_eq.
  - destruct (Z.lt_ge_cases 0 (UsageRecord.minutes r)) as [Hpos|Hle].
    + destruct (JS.match_P (UsageRecord.id r)) as [k'|] eqn:Hk.
      * rewrite (usageMap_step_add m r k' Hpos Hk).
        apply lookup_insert_ne. intros ->.
        assert (Spec.attributed k r = true) by now apply attributed_spec.
        congruence.
      * rewrite usageMap_step_skip by auto. reflexivity.
    + rewrite usageMap_step_skip by auto. reflexivity.
Qed.

Lemma total_cons (k : string) r rs :
  Spec.total k (r :: rs) =
  (if Spec.attributed k r then UsageRecord.minutes r else 0) + Spec.total k rs.
Proof. unfold Spec.total. simpl. now destruct (Spec.attributed k r). Qed.

Lemma total_none (k : string) rs :
  existsb (Spec.attributed k) rs = false -> Spec.total k rs = 0.
Proof.
  induction rs as [|r rs IH]; [reflexivity|].
  simpl. rewrite orb_false_iff. intros [Hr Hrs].
  rewrite total_cons, Hr. now rewrite IH.
Qed.

Lemma total_nonneg (k : string) rs : 0 <= Spec.total k rs.
Proof.
  induction rs as [|r rs IH]; [reflexivity|].
  rewrite total_cons. destruct (Spec.attributed k r) eqn:E; [|lia].
  apply attributed_spec in E. lia.
Qed.

(** The running total of a family code after the loop, started from any
    mapping. *)
Lemma fold_usageMap_step_lookup rs m (k : string) :
  fold_left usageMap_step rs m !! k =
  if existsb (Spec.attributed k) rs
  then Some (default 0 (m !! k) + Spec.total k rs)
  else m !! k.
Proof.
  revert m; induction rs as [|r rs IH]; intros m; [reflexivity|].
  cbn [fold_left existsb]. rewrite IH, usageMap_step_lookup, total_cons.
  destruct (Spec.attributed k r) eqn:Er; cbn [orb from_option id].
  - destruct (existsb (Spec.attributed k) rs) eqn:Ers.
    + f_equal. lia.
    + rewrite total_none by exact Ers. f_equal. lia.
  - destruct (existsb (Spec.attributed k) rs); [f_equal; lia|reflexivity].
Qed.

Lemma usageMap_lookup rs (k : string) :
  usageMap rs !! k =
  if existsb (Spec.attributed k) rs then Some (Spec.total k rs) else None.
Proof.
  unfold usageMap. rewrite fold_usageMap_step_lookup, lookup_empty.
  destruct (existsb _ rs); reflexivity.
Qed.



End Aggregation.

(** C3. Usage aggregation skips exactly the malformed records. A record
    whose identifier holds no [P] followed by 4-5 digits, or whose minutes
    are not positive, leaves the mapping as it would be without the record;
    any other record adds its minutes to the total of the digits captured
    after the [P]; so the total of a family code is the sum of the minutes
    of the well-formed records carrying it, and a code no such record
    carries is absent. *)
Theorem usageMap_skips_exactly_malformed
    (before after : list UsageRecord.t) (r : UsageRecord.t) :
  (~ Spec.has_marker (UsageRecord.id r) \/ UsageRecord.minutes r <= 0 ->
   usageMap (before ++ r :: after) = usageMap (before ++ after))
  /\ (Spec.has_marker (UsageRecord.id r) -> 0 < UsageRecord.minutes r ->
      exists k,
        JS.match_P (UsageRecord.id r) = Some k /\
        JS.all_digits k = true /\ (4 <= String.length k <= 5)%nat /\
        usageMap (before ++ [r])
        = <[k := default 0 (usageMap before !! k) + UsageRecord.minutes r]> (usageMap before))
  /\ (forall k, usageMap (before ++ r :: after) !! k =
                if existsb (Spec.attributed k) (before ++ r :: after)
                then Some (Spec.total k (before ++ r :: after)) else None).
Proof.
  split; [|split].
  - intros H. unfold usageMap. rewrite !fold_left_app. cbn [fold_left].
    rewrite usageMap_step_skip; [reflexivity|].
    destruct H as [H|H]; [right; now apply match_P_no_marker|now left].
  - intros Hm Hpos. apply match_P_marker in Hm as [k Hk]. exists k.
    destruct (match_P_capture _ _ Hk) as (pre & post & _ & Hd & Hl).
    repeat split; try assumption; try lia.
    unfold usageMap. rewrite fold_left_app. cbn [fold_left].
    now apply usageMap_step_add.
  - intros k. apply usageMap_lookup.
Qed.

Lemma usageMap_skips_exactly_malformed_witness :
  usageMap ([] ++ UsageRecord.mk "FRA-P8201-S15.2R0_H100W16L100X" (Some (-5)) None :: sample_usage)
  = usageMap ([] ++ sample_usage)
  /\ exists k, JS.match_P "FRA-P8201-S15.2R0_H100W16L100X" = Some k /\
               usageMap (sample_usage ++ [UsageRecord.mk "FRA-P8201-S15.2R0_H100W16L100X" None (Some 15)])
               !! k = Some 60.
Proof.
  split.
  - apply (proj1 (usageMap_skips_exactly_malformed []
             sample_usage (UsageRecord.mk "FRA-P8201-S15.2R0_H100W16L100X" (Some (-5)) None))).
    right. vm_compute. discriminate.
  - destruct (proj1 (proj2 (usageMap_skips_exactly_malformed sample_usage []
                (UsageRecord.mk "FRA-P8201-S15.2R0_H100W16L100X" None (Some 15)))))
      as (k & Hk & _ & _ & Hmap).
    + exists "FRA-", "8201", "-S15.2R0_H100W16L100X". repeat split.
    + vm_compute. reflexivity.
    + exists k. split; [exact Hk|]. rewrite Hmap, lookup_insert_eq.
      vm_compute in Hk. injection Hk as <-. vm_compute. reflexivity.
Defined.

(** ** Order of the usage records *)

Section Order.

Context {N : Type} (ops : Num.ops N).

Lemma usageMapIn_step_dom (m : gmap string N) (r : UsageRecordIn.t N) :
  dom (usageMapIn_step ops m r) = dom m ∪ filed_under ops r.
Proof.
  unfold usageMapIn_step, filed_under. cbv zeta.
  destruct (Num.positive ops _); [|set_solver].
  destruct (JS.match_P _) as [k|]; [|set_solver].
  rewrite dom_insert_L. set_solver.
Qed.

Lemma fold_usageMapIn_step_dom (l : list (UsageRecordIn.t N)) (m : gmap string N) :
  dom (fold_left (usageMapIn_step ops) l m) = dom m ∪ ⋃ (List.map (filed_under ops) l).
Proof.
  revert m; induction l as [|r l IH]; intros m; cbn [fold_left List.map union_list foldr].
  - set_solver.
  - rewrite IH, usageMapIn_step_dom. set_solver.
Qed.


Lemma filed_under_app (l1 l2 : list (UsageRecordIn.t N)) :
  ⋃ (List.map (filed_under ops) (l1 ++ l2))
  = ⋃ (List.map (filed_under ops) l1) ∪ ⋃ (List.map (filed_under ops) l2).
Proof.
  induction l1 as [|r l1 IH]; cbn [app List.map union_list foldr]; [set_solver|].
  rewrite IH. set_solver.
Qed.

Lemma elem_of_filed_under (l : list (UsageRecordIn.t N)) (k : string) :
  k ∈ ⋃ (List.map (filed_under ops) l)
  <-> exists r, In r l /\ Num.positive ops (UsageRecordIn.minutes ops r) = true /\
                JS.match_P (UsageRecordIn.id r) = Some k.
Proof.
  induction l as [|r l IH]; cbn [List.map union_list foldr In].
  - split; [set_solver|intros (r & [] & _)].
  - rewrite elem_of_union, IH. unfold filed_under. split.
    + intros [Hr|(r' & Hin & Hr')]; [|exists r'; tauto].
      exists r. destruct (Num.positive ops _); [|set_solver].
      destruct (JS.match_P _) as [k'|]; [|set_solver].
      apply elem_of_singleton in Hr. subst k'. tauto.
    + intros (r' & [<-|Hin] & Hpos & Hk); [|right; exists r'; tauto].
      left. rewrite Hpos, Hk. set_solver.
Qed.

Lemma usageMapIn_dom (l : list (UsageRecordIn.t N)) :
  dom (usageMapIn ops l) = ⋃ (List.map (filed_under ops) l).
Proof. unfold usageMapIn. rewrite fold_usageMapIn_step_dom. set_solver. Qed.

(** In an arithmetic whose sums do not depend on the order of the terms,
    and where a falsy total adds like 0, two iterations commute. *)
Hypothesis add_right_comm :
  forall a b c, Num.add ops (Num.add ops a b) c = Num.add ops (Num.add ops a c) b.
Hypothesis add_falsy :
  forall v b, Num.truthy ops v = false -> Num.add ops v b = Num.add ops (Num.zero ops) b.




End Order.

Section IntegerMinutes.




End IntegerMinutes.




(** ** Merging usage into the matrix tools *)

Section Merge.

Variable usage : gmap string Z.

(** A stored code prefix decides the lookup. *)
Lemma withUsage_codePrefix (tool : MatrixTool.t) :
  MatrixTool.codePrefix tool <> EmptyString ->
  withUsage usage tool
  = Some (ToolWithUsage.mk tool (default 0 (usage !! MatrixTool.codePrefix tool))).
Proof.
  intros Hne. unfold withUsage, codePattern.
  destruct (MatrixTool.codePrefix tool) as [|c s] eqn:E; [congruence|].
  cbn [JS.truthy]. now rewrite int_or_default.
Qed.

(** Without one, the digits the regular expression captures in the tool
    id decide it. *)
Lemma withUsage_fallback (tool : MatrixTool.t) (toolId k : string) :
  MatrixTool.codePrefix tool = EmptyString ->
  MatrixTool.toolId tool = Some toolId ->
  JS.match_RT toolId = Some k ->
  withUsage usage tool = Some (ToolWithUsage.mk tool (default 0 (usage !! k))).
Proof.
  intros Hp Hid Hk. unfold withUsage, codePattern.
  rewrite Hp, Hid, Hk. cbn [JS.truthy]. now rewrite int_or_default.
Qed.

Lemma match_RT_here_found (s d : string) :
  JS.match_RT_here s = Some d -> JS.match_RT s = Some d.
Proof. intros H. destruct s; cbn [JS.match_RT]; now rewrite H. Qed.

(** The fallback expression is greedy: on a code with at least five digits
    after [RT-] it captures five of them, whatever the family is. *)
Lemma match_RT_five_digits (c1 c2 c3 c4 c5 : ascii) (rest : string) :
  JS.is_digit c1 = true -> JS.is_digit c2 = true -> JS.is_digit c3 = true ->
  JS.is_digit c4 = true -> JS.is_digit c5 = true ->
  JS.match_RT ("RT-" +:+ String c1 (String c2 (String c3 (String c4 (String c5 rest)))))
  = Some (String c1 (String c2 (String c3 (String c4 (String c5 EmptyString))))).
Proof.
  intros H1 H2 H3 H4 H5.
  assert (HX : Ascii.eqb "X" c1 = false).
  { destruct (Ascii.eqb_spec "X"%char c1) as [<-|]; [discriminate H1|reflexivity]. }
  apply match_RT_here_found.
  rewrite !app_cons, app_empty.
  unfold JS.match_RT_here. cbn [JS.startsWith JS.drop].
  rewrite !Ascii.eqb_refl, HX.
  unfold JS.digits_4_5. cbn [JS.leading_digits].
  now rewrite H1, H2, H3, H4, H5.
Qed.

End Merge.

(** C2, evaluated on the code. The inventory row [RT-8201300], of family
    code [8201], has no stored code prefix; the usage record
    [FRA-P8201-S15.2R0_H100W16L100X] of 45 minutes puts 45 under [8201]; the
    merge looks the tool up under [82013], the five digits its regular
    expression captures, and reports 0 minutes. With the code prefix [8201]
    stored in the definitions the same tool is reported with 45. *)
Theorem toolsWithUsage_RT8201300 :
  familyCode "RT-8201300" = "8201"
  /\ usageMap sample_usage !! "8201" = Some 45
  /\ List.map codePattern (matrixTools default_matrixCodePatterns ∅ sample_row_8201)
     = [Some "82013"]
  /\ List.map ToolWithUsage.usageMinutes
       <$> toolsWithUsage (usageMap sample_usage)
             (matrixTools default_matrixCodePatterns ∅ sample_row_8201)
     = Some [0]
  /\ List.map ToolWithUsage.usageMinutes
       <$> toolsWithUsage (usageMap sample_usage)
             (matrixTools default_matrixCodePatterns sample_definitions_8201 sample_row_8201)
     = Some [45].
Proof. repeat split; vm_compute; reflexivity. Qed.

(** * Further properties of the matrix view *)

(** ** Variants of a code *)

Section Variants.

Lemma app_assoc_string (a b c : string) : (a +:+ b) +:+ c = a +:+ (b +:+ c).
Proof. induction a as [|x a IH]; [reflexivity|]. rewrite !app_cons. now f_equal. Qed.

Lemma startsWith_empty (s : string) : JS.startsWith s EmptyString = true.
Proof. reflexivity. Qed.

Lemma includes_empty (s : string) : JS.includes s EmptyString = true.
Proof. destruct s; reflexivity. Qed.

(** An underscore right after [s] does not help [s] start with [RT-]. *)
Lemma startsWith_RT_before_underscore (s v : string) :
  JS.startsWith (s +:+ String "_" v) "RT-" = JS.startsWith s "RT-".
Proof.
  destruct s as [|c1 [|c2 [|c3 s]]]; rewrite ?app_cons, ?app_empty; cbn [JS.startsWith];
    reflexivity.
Qed.

Lemma startsWith_RT_length (s : string) :
  JS.startsWith s "RT-" = true -> exists s', s = "RT-" +:+ s'.
Proof.
  destruct s as [|c1 [|c2 [|c3 s]]]; cbn [JS.startsWith]; try discriminate.
  - destruct (Ascii.eqb "R" c1); discriminate.
  - destruct (Ascii.eqb "R" c1), (Ascii.eqb "T" c2); discriminate.
  - destruct (Ascii.eqb_spec "R"%char c1) as [<-|]; [|discriminate].
    destruct (Ascii.eqb_spec "T"%char c2) as [<-|]; [|discriminate].
    destruct (Ascii.eqb_spec "-"%char c3) as [<-|]; [|discriminate].
    intros _. now exists s.
Qed.

Lemma split_head_app_sep (sep : ascii) (a v : string) :
  JS.all_chars (fun c => negb (Ascii.eqb c sep)) a = true ->
  JS.split_head sep (a +:+ String sep v) = a.
Proof.
  induction a as [|c a IH]; intros H.
  - rewrite app_empty. cbn [JS.split_head]. now rewrite Ascii.eqb_refl.
  - cbn [JS.all_chars] in H. apply andb_true_iff in H as [Hc Ha].
    apply negb_true_iff in Hc. rewrite app_cons. cbn [JS.split_head].
    rewrite Hc. f_equal. auto.
Qed.

Lemma split_head_id (sep : ascii) (a : string) :
  JS.all_chars (fun c => negb (Ascii.eqb c sep)) a = true -> JS.split_head sep a = a.
Proof.
  induction a as [|c a IH]; intros H; [reflexivity|].
  cbn [JS.all_chars] in H. apply andb_true_iff in H as [Hc Ha].
  apply negb_true_iff in Hc. cbn [JS.split_head]. rewrite Hc. f_equal. auto.
Qed.

(** What follows the first underscore never reaches the cleaned code. *)
Lemma replace_split_variant (s v : string) :
  JS.all_chars (fun c => negb (Ascii.eqb c "_")) s = true ->
  JS.split_head "_" (JS.replace_first_empty "RT-" (s +:+ String "_" v))
  = JS.split_head "_" (JS.replace_first_empty "RT-" s).
Proof.
  induction s as [|c s IH]; intros H.
  - rewrite app_empty. reflexivity.
  - assert (Hs := H). cbn [JS.all_chars] in H. apply andb_true_iff in H as [Hc Hrest].
    apply negb_true_iff in Hc.
    destruct (JS.startsWith (String c s) "RT-") eqn:E.
    + rewrite (replace_first_empty_prefix (String c s) E).
      rewrite replace_first_empty_prefix by now rewrite startsWith_RT_before_underscore.
      destruct (startsWith_RT_length _ E) as [s' Hs'].
      rewrite Hs' in *. rewrite app_assoc_string.
      change (JS.drop 3 ("RT-" +:+ s' +:+ String "_" v)) with (s' +:+ String "_" v).
      change (JS.drop 3 ("RT-" +:+ s')) with s'.
      assert (Hs'' : JS.all_chars (fun c => negb (Ascii.eqb c "_")) s' = true).
      { revert Hs. rewrite !app_cons, app_empty. cbn [JS.all_chars].
        rewrite !andb_true_iff. tauto. }
      now rewrite split_head_app_sep, split_head_id.
    + assert (E' : JS.startsWith (String c s +:+ String "_" v) "RT-" = false)
        by now rewrite startsWith_RT_before_underscore.
      rewrite app_cons in *.
      change (JS.replace_first_empty "RT-" (String c (s +:+ String "_" v)))
        with (if JS.startsWith (String c (s +:+ String "_" v)) "RT-"
              then JS.drop 3 (String c (s +:+ String "_" v))
              else String c (JS.replace_first_empty "RT-" (s +:+ String "_" v))).
      change (JS.replace_first_empty "RT-" (String c s))
        with (if JS.startsWith (String c s) "RT-"
              then JS.drop 3 (String c s)
              else String c (JS.replace_first_empty "RT-" s)).
      rewrite E, E'. cbn [JS.split_head]. rewrite Hc. f_equal. auto.
Qed.

Lemma cleaned_variant (s v : string) :
  JS.all_chars (fun c => negb (Ascii.eqb c "_")) s = true ->
  cleaned (s +:+ String "_" v) = cleaned s.
Proof. intros H. unfold cleaned. now rewrite replace_split_variant. Qed.

End Variants.

(** X1. Everything from the first underscore on is ignored by the family
    code: a code without underscore and the same code with any [_suffix]
    have the same family code and, when the code is not empty, the same
    image URL. *)
Theorem familyCode_ignores_variant (code suffix : string) :
  JS.all_chars (fun c => negb (Ascii.eqb c "_")) code = true ->
  familyCode (code +:+ String "_" suffix) = familyCode code
  /\ (code <> EmptyString ->
      getImageUrl (Some (code +:+ String "_" suffix)) = getImageUrl (Some code)).
Proof.
  intros H.
  assert (Hf : familyCode (code +:+ String "_" suffix) = familyCode code).
  { unfold familyCode. now rewrite cleaned_variant. }
  split; [exact Hf|].
  intros Hne. destruct code as [|c s]; [congruence|].
  rewrite app_cons. unfold getImageUrl. cbn [JS.truthy negb].
  rewrite <- app_cons. now rewrite Hf.
Qed.

Lemma familyCode_ignores_variant_witness :
  familyCode "RT-8400300_1" = familyCode "RT-8400300"
  /\ getImageUrl (Some "RT-X7620300_2_old") = getImageUrl (Some "RT-X7620300").
Proof.
  split.
  - apply (proj1 (familyCode_ignores_variant "RT-8400300" "1" eq_refl)).
  - apply (proj2 (familyCode_ignores_variant "RT-X7620300" "2_old" eq_refl)).
    discriminate.
Defined.

(** X2. A variant that has no entry of its own in the definitions inherits
    the data of its base code: for a non-empty code without underscore,
    [getToolData] of [code_suffix] is [getToolData] of [code] whenever
    [code_suffix] is not a key of the table. *)
Theorem getToolData_variant_inherits
    (baseDiameters : gmap string ToolDefinition.t) (code suffix : string) :
  code <> EmptyString ->
  JS.all_chars (fun c => negb (Ascii.eqb c "_")) code = true ->
  baseDiameters !! (code +:+ String "_" suffix) = None ->
  getToolData baseDiameters (Some (code +:+ String "_" suffix))
  = getToolData baseDiameters (Some code).
Proof.
  intros Hne Hcode Hnone. destruct code as [|c s]; [congruence|].
  unfold getToolData.
  rewrite app_cons in *. cbn [JS.truthy negb JS.str_or]. cbv zeta.
  rewrite Hnone. rewrite <- app_cons.
  rewrite split_head_app_sep by exact Hcode.
  rewrite split_head_id by exact Hcode.
  now destruct (baseDiameters !! String c s).
Qed.

Lemma getToolData_variant_inherits_witness :
  getToolData sample_definitions (Some "RT-8400300_7")
  = getToolData sample_definitions (Some "RT-8400300").
Proof.
  apply (getToolData_variant_inherits sample_definitions "RT-8400300" "7").
  - discriminate.
  - reflexivity.
  - vm_compute. reflexivity.
Defined.

(** ** The manufacturer prefix, wherever it stands *)

Lemma replace_first_empty_first (pre rest : string) :
  JS.all_chars (fun c => negb (Ascii.eqb c "R")) pre = true ->
  JS.replace_first_empty "RT-" (pre +:+ "RT-" +:+ rest) = pre +:+ rest.
Proof.
  induction pre as [|c pre IH]; intros H.
  - rewrite !app_empty. reflexivity.
  - cbn [JS.all_chars] in H. apply andb_true_iff in H as [Hc Hpre].
    apply negb_true_iff in Hc. rewrite !app_cons.
    cbn [JS.replace_first_empty JS.startsWith]. rewrite Ascii.eqb_sym, Hc.
    f_equal. auto.
Qed.

(** X3. [getImageUrl] removes the first [RT-] of a code wherever it stands,
    not only in front, and only the first: after a part without [R], the
    family code of [pre RT- rest] is computed from [pre rest], a further
    [RT-] inside [rest] staying in place. *)
Theorem familyCode_removes_first_RT (pre rest : string) :
  JS.all_chars (fun c => negb (Ascii.eqb c "R")) pre = true ->
  cleaned (pre +:+ "RT-" +:+ rest) = Spec.strip_feed (JS.split_head "_" (pre +:+ rest))
  /\ familyCode (pre +:+ "RT-" +:+ rest)
     = Spec.length_rule (Spec.strip_feed (JS.split_head "_" (pre +:+ rest))).
Proof.
  intros H.
  assert (Hc : cleaned (pre +:+ "RT-" +:+ rest)
               = Spec.strip_feed (JS.split_head "_" (pre +:+ rest))).
  { unfold cleaned. cbv zeta. rewrite replace_first_empty_first by exact H.
    apply strip_feed_code. }
  split; [exact Hc|].
  unfold familyCode. cbv zeta. now rewrite code_length_rule, Hc.
Qed.

Lemma familyCode_removes_first_RT_witness :
  familyCode "XRT-8400300" = "8400" /\ familyCode "RT-RT-8400300" = "RT-8400".
Proof.
  split.
  - apply (proj2 (familyCode_removes_first_RT "X" "8400300" eq_refl)).
  - apply (proj2 (familyCode_removes_first_RT EmptyString "RT-8400300" eq_refl)).
Defined.

(** ** The pattern filter *)

Section Filter.

Lemma is_matrix_row_default (tool : InventoryRow.t) :
  is_matrix_row default_matrixCodePatterns tool
  = match category (JS.str_or (InventoryRow.toolCode tool) EmptyString) with
    | OTHER => false
    | _ => true
    end.
Proof.
  unfold is_matrix_row, default_matrixCodePatterns, category. cbv zeta.
  cbn [existsb].
  set (code := JS.str_or (InventoryRow.toolCode tool) EmptyString).
  destruct (JS.includes code "8400"), (JS.includes code "8410"),
    (JS.includes code "8420"), (JS.includes code "8201"), (JS.includes code "8211"),
    (JS.includes code "8221"), (JS.includes code "1525"), (JS.includes code "8521"),
    (JS.includes code "7620"), (JS.includes code "7624"); reflexivity.
Qed.

Lemma toMatrixTool_category (baseDiameters : gmap string ToolDefinition.t)
    (tool : InventoryRow.t) :
  MatrixTool.category (toMatrixTool baseDiameters tool)
  = category (JS.str_or (InventoryRow.toolCode tool) EmptyString).
Proof. reflexivity. Qed.

Lemma filteredTools_In (patterns : list string) (inventory : list InventoryRow.t)
    (tool : InventoryRow.t) :
  In tool (filteredTools patterns inventory)
  <-> In tool inventory /\ is_matrix_row patterns tool = true.
Proof. unfold filteredTools. apply List.filter_In. Qed.

Lemma filter_length_le {A : Type} (p : A -> bool) (l : list A) :
  (List.length (List.filter p l) <= List.length l)%nat.
Proof.
  induction l as [|a l IH]; simpl; [lia|]. destruct (p a); simpl; lia.
Qed.

End Filter.

(** X4. With the built-in pattern list the filter and the category chain
    agree: a row is kept in the matrix view exactly when its category is not
    OTHER, so no tool of that view is classified OTHER and every row left
    out would have been. *)
Theorem default_patterns_keep_known_categories
    (baseDiameters : gmap string ToolDefinition.t) (inventory : list InventoryRow.t) :
  (forall tool,
      is_matrix_row default_matrixCodePatterns tool = true
      <-> category (JS.str_or (InventoryRow.toolCode tool) EmptyString) <> OTHER)
  /\ Forall (fun t => MatrixTool.category t <> OTHER)
            (matrixTools default_matrixCodePatterns baseDiameters inventory)
  /\ Forall (fun tool => In tool (filteredTools default_matrixCodePatterns inventory)
                         \/ category (JS.str_or (InventoryRow.toolCode tool) EmptyString) = OTHER)
            inventory.
Proof.
  assert (Hiff : forall tool,
             is_matrix_row default_matrixCodePatterns tool = true
             <-> category (JS.str_or (InventoryRow.toolCode tool) EmptyString) <> OTHER).
  { intros tool. rewrite is_matrix_row_default.
    destruct (category _); split; congruence. }
  split; [exact Hiff|]. split.
  - unfold matrixTools. apply List.Forall_forall. intros t Ht.
    apply List.in_map_iff in Ht as [tool [<- Hin]].
    rewrite toMatrixTool_category. apply Hiff.
    now apply filteredTools_In in Hin.
  - apply List.Forall_forall. intros tool Hin.
    destruct (is_matrix_row default_matrixCodePatterns tool) eqn:E.
    + left. now apply filteredTools_In.
    + right. rewrite is_matrix_row_default in E. now destruct (category _).
Qed.

(** X5. Edge cases of the pattern filter: with an empty pattern list (a
    definitions file without patterns) the matrix view is empty; a pattern
    list holding the empty pattern keeps every row, rows without a code
    included; and the view never has more tools than the snapshot has
    rows. *)
Theorem filteredTools_edge_cases
    (patterns : list string) (baseDiameters : gmap string ToolDefinition.t)
    (inventory : list InventoryRow.t) :
  matrixTools [] baseDiameters inventory = []
  /\ (In EmptyString patterns -> filteredTools patterns inventory = inventory)
  /\ (List.length (matrixTools patterns baseDiameters inventory) <= List.length inventory)%nat.
Proof.
  split; [|split].
  - unfold matrixTools, filteredTools.
    induction inventory as [|tool inventory IH]; [reflexivity|]. exact IH.
  - intros Hin. apply filteredTools_all. apply forallb_forall. intros tool _.
    unfold is_matrix_row. cbv zeta. apply existsb_exists.
    exists EmptyString. split; [exact Hin|apply includes_empty].
  - unfold matrixTools, filteredTools. rewrite length_map. apply filter_length_le.
Qed.

Lemma filteredTools_edge_cases_witness :
  filteredTools ["8400"; EmptyString]
    [InventoryRow.mk None (Some 2); InventoryRow.mk (Some "RT-9999300") None]
  = [InventoryRow.mk None (Some 2); InventoryRow.mk (Some "RT-9999300") None].
Proof.
  apply (proj1 (proj2 (filteredTools_edge_cases ["8400"; EmptyString] ∅
           [InventoryRow.mk None (Some 2); InventoryRow.mk (Some "RT-9999300") None]))).
  right. left. reflexivity.
Defined.

(** ** The usage merge as a whole *)

Section MergeWhole.

Lemma codePattern_None (tool : MatrixTool.t) :
  codePattern tool = None
  <-> MatrixTool.codePrefix tool = EmptyString /\ MatrixTool.toolId tool = None.
Proof.
  unfold codePattern.
  destruct (MatrixTool.codePrefix tool) as [|c s]; cbn [JS.truthy].
  - destruct (MatrixTool.toolId tool) as [toolId|].
    + destruct (JS.match_RT toolId); split; [discriminate|intros [_ H]; discriminate H
                                            |discriminate|intros [_ H]; discriminate H].
    + split; auto.
  - split; [discriminate|intros [H _]; discriminate H].
Qed.

Lemma withUsage_None (usage : gmap string Z) (tool : MatrixTool.t) :
  withUsage usage tool = None <-> codePattern tool = None.
Proof. unfold withUsage. destruct (codePattern tool); split; congruence. Qed.

Lemma withUsage_Some (usage : gmap string Z) (tool : MatrixTool.t) (w : ToolWithUsage.t) :
  withUsage usage tool = Some w ->
  ToolWithUsage.tool w = tool /\
  exists k, codePattern tool = Some k /\
            ToolWithUsage.usageMinutes w = default 0 (usage !! k).
Proof.
  unfold withUsage. destruct (codePattern tool) as [k|]; [|discriminate].
  intros [= <-]. split; [reflexivity|]. exists k. split; [reflexivity|].
  apply int_or_default.
Qed.

Lemma usageMap_default (records : list UsageRecord.t) (k : string) :
  default 0 (usageMap records !! k) = Spec.total k records.
Proof.
  rewrite usageMap_lookup. destruct (existsb _ records) eqn:E; [reflexivity|].
  now rewrite total_none.
Qed.

End MergeWhole.

(** X6. [toolsWithUsage] fails (the handler answers 500) exactly when some
    matrix tool has neither a code prefix nor a tool id; when it succeeds it
    returns one record per tool, in the same order, each made of the tool as
    it was and of its usage: the entry of the usage mapping under the code
    pattern of the tool, 0 when there is none or when it is 0. *)
Theorem toolsWithUsage_shape (usage : gmap string Z) (tools : list MatrixTool.t) :
  (toolsWithUsage usage tools = None
   <-> Exists (fun t => MatrixTool.codePrefix t = EmptyString /\ MatrixTool.toolId t = None)
              tools)
  /\ (forall result, toolsWithUsage usage tools = Some result ->
                     List.map ToolWithUsage.tool result = tools /\
                     Forall2 (fun t w =>
                                ToolWithUsage.tool w = t /\
                                exists k, codePattern t = Some k /\
                                          ToolWithUsage.usageMinutes w
                                          = JS.int_or (usage !! k) 0 /\
                                          ToolWithUsage.usageMinutes w
                                          = default 0 (usage !! k))
                             tools result).
Proof.
  split.
  - unfold toolsWithUsage. rewrite mapM_None.
    split; intros H; eapply Exists_impl; try exact H; intros t Ht; cbv beta in *.
    + apply codePattern_None. eapply withUsage_None. exact Ht.
    + apply withUsage_None. apply codePattern_None. exact Ht.
  - intros result H. unfold toolsWithUsage in H. apply mapM_Some_1 in H.
    induction H as [|t w tools result Hw _ [IHmap IHall]]; [split; constructor|].
    assert (Hw' := Hw). apply withUsage_Some in Hw as [Htool (k & Hk & Hm)].
    split.
    + cbn [List.map]. now rewrite Htool, IHmap.
    + constructor; [|exact IHall]. split; [exact Htool|]. exists k.
      split; [exact Hk|]. split; [|exact Hm]. now rewrite int_or_default.
Qed.

Lemma toolsWithUsage_shape_witness :
  toolsWithUsage (usageMap sample_usage)
    (matrixTools [EmptyString] ∅ [InventoryRow.mk None (Some 3)]) = None.
Proof.
  apply (proj1 (toolsWithUsage_shape (usageMap sample_usage)
                  (matrixTools [EmptyString] ∅ [InventoryRow.mk None (Some 3)]))).
  left. split; reflexivity.
Defined.

(** X7. End to end, the minutes merged into a tool are the sum of the
    minutes of the usage records with positive minutes whose identifier
    yields the tool's code pattern (its stored code prefix, else the digits
    captured in its id); they are never negative. *)
Theorem merged_usage_is_attributed_total
    (records : list UsageRecord.t) (tools : list MatrixTool.t)
    (result : list ToolWithUsage.t) :
  toolsWithUsage (usageMap records) tools = Some result ->
  Forall (fun w =>
            0 <= ToolWithUsage.usageMinutes w /\
            exists k, codePattern (ToolWithUsage.tool w) = Some k /\
                      ToolWithUsage.usageMinutes w = Spec.total k records)
         result.
Proof.
  intros H. unfold toolsWithUsage in H. apply mapM_Some_1 in H.
  induction H as [|t w tools result Hw _ IH]; constructor; [|exact IH].
  apply withUsage_Some in Hw as [-> (k & Hk & Hm)].
  rewrite usageMap_default in Hm. rewrite Hm.
  split; [apply total_nonneg|]. now exists k.
Qed.

Lemma merged_usage_is_attributed_total_witness :
  Forall (fun w =>
            0 <= ToolWithUsage.usageMinutes w /\
            exists k, codePattern (ToolWithUsage.tool w) = Some k /\
                      ToolWithUsage.usageMinutes w = Spec.total k sample_usage)
         [ToolWithUsage.mk
            (toMatrixTool sample_definitions_8201
               (InventoryRow.mk (Some "RT-8201300") (Some 10))) 45].
Proof.
  apply (merged_usage_is_attributed_total sample_usage
           (matrixTools default_matrixCodePatterns sample_definitions_8201 sample_row_8201)).
  vm_compute. reflexivity.
Defined.

(** ** The fallback expression against the family code *)

Section FallbackKey.

Lemma digit_not_underscore (c : ascii) :
  JS.is_digit c = true -> negb (Ascii.eqb c "_") = true.
Proof. destruct c as [[] [] [] [] [] [] [] []]; intros H; try reflexivity; discriminate H. Qed.

Lemma strip_variant_digits (d : string) :
  JS.all_digits d = true -> Spec.strip_variant d = d.
Proof.
  induction d as [|c d IH]; [reflexivity|].
  cbn [JS.all_digits Spec.strip_variant]. rewrite andb_true_iff. intros [Hc Hd].
  apply digit_not_underscore, negb_true_iff in Hc. rewrite Hc. cbn [andb].
  f_equal. auto.
Qed.

Lemma strip_feed_digits (d : string) :
  JS.all_digits d = true -> Spec.strip_feed d = d.
Proof.
  destruct d as [|c d]; [reflexivity|].
  cbn [JS.all_digits]. rewrite andb_true_iff. intros [Hc _].
  apply strip_feed_other.
  destruct (Ascii.eqb_spec c "X"%char) as [->|]; [discriminate Hc|reflexivity].
Qed.

Lemma starts_with_digit_not_RT (d : string) :
  JS.all_digits d = true -> JS.startsWith d "RT-" = false.
Proof.
  destruct d as [|c d]; [reflexivity|].
  cbn [JS.all_digits JS.startsWith]. rewrite andb_true_iff. intros [Hc _].
  destruct (Ascii.eqb_spec "R"%char c) as [<-|]; [discriminate Hc|reflexivity].
Qed.

Lemma remaining_RT_digits (d : string) :
  JS.all_digits d = true ->
  Spec.remaining ("RT-" +:+ d) = d /\ Spec.remaining d = d.
Proof.
  intros H. unfold Spec.remaining, Spec.strip_prefix.
  rewrite (starts_with_digit_not_RT d H).
  change (JS.startsWith ("RT-" +:+ d) "RT-") with true. cbv iota.
  change (JS.drop 3 ("RT-" +:+ d)) with d.
  now rewrite strip_variant_digits, strip_feed_digits.
Qed.

Lemma familyCode_RT_digits (d : string) :
  JS.all_digits d = true -> (6 <= String.length d)%nat ->
  familyCode ("RT-" +:+ d) = JS.take (String.length d - 3) d.
Proof.
  intros H Hl. destruct (remaining_RT_digits d H) as [Hr _].
  unfold familyCode. cbv zeta. rewrite code_length_rule.
  rewrite cleaned_remaining by now rewrite Hr.
  rewrite Hr. unfold Spec.length_rule.
  apply Nat.leb_le in Hl. now rewrite Hl.
Qed.

Lemma match_RT_take5 (d : string) :
  JS.all_digits d = true -> (5 <= String.length d)%nat ->
  JS.match_RT ("RT-" +:+ d) = Some (JS.take 5 d).
Proof.
  destruct d as [|c1 [|c2 [|c3 [|c4 [|c5 d]]]]]; cbn [String.length]; try lia.
  cbn [JS.all_digits]. rewrite !andb_true_iff. intros (H1 & H2 & H3 & H4 & H5 & _) _.
  now apply match_RT_five_digits.
Qed.

End FallbackKey.

(** X8. For a code [RT-] followed by six or more digits, the digits the
    fallback expression of the usage merge captures are the family code of
    [getImageUrl] exactly when the code has eight digits (a five-digit
    family and a three-digit diameter). *)
Theorem fallback_pattern_is_familyCode_iff_8_digits (d : string) :
  JS.all_digits d = true -> (6 <= String.length d)%nat ->
  (JS.match_RT ("RT-" +:+ d) = Some (familyCode ("RT-" +:+ d))
   <-> String.length d = 8%nat).
Proof.
  intros H Hl.
  rewrite familyCode_RT_digits, match_RT_take5 by (assumption || lia).
  split.
  - intros Hsome.
    assert (Heq : JS.take 5 d = JS.take (String.length d - 3) d) by congruence.
    apply (f_equal String.length) in Heq.
    rewrite !take_length in Heq. lia.
  - intros ->. reflexivity.
Qed.

Lemma fallback_pattern_is_familyCode_iff_8_digits_witness :
  JS.match_RT "RT-15250391" = Some (familyCode "RT-15250391").
Proof.
  apply (proj2 (fallback_pattern_is_familyCode_iff_8_digits "15250391" eq_refl
                  ltac:(simpl; lia))).
  reflexivity.
Defined.

(** ** Invariants of the usage mapping *)

Section UsageInvariants.

Lemma total_app (k : string) (l1 l2 : list UsageRecord.t) :
  Spec.total k (l1 ++ l2) = Spec.total k l1 + Spec.total k l2.
Proof.
  induction l1 as [|r l1 IH]; [reflexivity|].
  cbn [app]. rewrite !total_cons, IH. lia.
Qed.

Lemma total_pos (k : string) (rs : list UsageRecord.t) :
  existsb (Spec.attributed k) rs = true -> 0 < Spec.total k rs.
Proof.
  induction rs as [|r rs IH]; [discriminate|].
  cbn [existsb]. rewrite total_cons. pose proof (total_nonneg k rs).
  destruct (Spec.attributed k r) eqn:E.
  - apply attributed_spec in E. lia.
  - cbn [orb]. intros Hrs. apply IH in Hrs. lia.
Qed.

Lemma minutes_of_usageMinutes (id : string) (v : Z) (rt : option Z) :
  v <> 0 -> UsageRecord.minutes (UsageRecord.mk id (Some v) rt) = v.
Proof.
  intros Hv. unfold UsageRecord.minutes. cbn [UsageRecord.usageMinutes JS.opt_or].
  apply Z.eqb_neq in Hv. rewrite Hv. cbn [JS.int_or]. now rewrite Hv.
Qed.

Lemma minutes_of_runningTime (id : string) (um rt : option Z) :
  um = None \/ um = Some 0 ->
  UsageRecord.minutes (UsageRecord.mk id um rt) = default 0 rt.
Proof.
  intros [-> | ->]; unfold UsageRecord.minutes;
    cbn [UsageRecord.usageMinutes UsageRecord.runningTime JS.opt_or Z.eqb];
    apply int_or_default.
Qed.

End UsageInvariants.

(** X9. Every key of the usage mapping is a string of four or five digits
    and every total in it is strictly positive. *)
Theorem usageMap_keys_and_totals (records : list UsageRecord.t) :
  map_Forall (fun k v => JS.all_digits k = true /\
                         (4 <= String.length k <= 5)%nat /\ 0 < v)
             (usageMap records).
Proof.
  intros k v. rewrite usageMap_lookup.
  destruct (existsb (Spec.attributed k) records) eqn:E; [|discriminate].
  intros [= <-].
  assert (Hpos := total_pos k records E).
  apply existsb_exists in E as (r & _ & Hr).
  apply attributed_spec in Hr as [_ Hk].
  destruct (match_P_capture _ _ Hk) as (pre & post & _ & Hd & Hl).
  repeat split; try assumption; lia.
Qed.

(** X10. The family codes of concatenated feeds, in any arithmetic: the
    codes present after aggregating [l1 ++ l2] are those present after [l1]
    and those present after [l2], so a code never disappears when records
    are added; a code is present exactly when some record with minutes
    [> 0] has an identifier that yields it. *)
Theorem usageMap_keys_additive
    (N : Type) (ops : Num.ops N) (l1 l2 : list (UsageRecordIn.t N)) (k : string) :
  dom (usageMapIn ops (l1 ++ l2)) = dom (usageMapIn ops l1) ∪ dom (usageMapIn ops l2)
  /\ (k ∈ dom (usageMapIn ops (l1 ++ l2))
      <-> exists r, In r (l1 ++ l2) /\
                    Num.positive ops (UsageRecordIn.minutes ops r) = true /\
                    JS.match_P (UsageRecordIn.id r) = Some k).
Proof.
  split.
  - rewrite !usageMapIn_dom. apply filed_under_app.
  - rewrite usageMapIn_dom. apply elem_of_filed_under.
Qed.

(** X11. Which minutes count, in any arithmetic: a truthy [usageMinutes]
    (neither 0 nor [NaN]) is taken as it is, whatever [runningTime] is;
    [runningTime] is read only when [usageMinutes] is missing or falsy; so
    a record whose [usageMinutes] is truthy but not [> 0] is skipped even
    with a positive [runningTime]. *)
Theorem usageMinutes_mask_runningTime
    (N : Type) (ops : Num.ops N) (usage : gmap string N) (id : string) (v : N)
    (runningTime : option N) :
  Num.truthy ops v = true ->
  UsageRecordIn.minutes ops (UsageRecordIn.mk id (Some v) runningTime) = v
  /\ (Num.positive ops v = false ->
      usageMapIn_step ops usage (UsageRecordIn.mk id (Some v) runningTime) = usage)
  /\ (forall v0, Num.truthy ops v0 = false ->
                 UsageRecordIn.minutes ops (UsageRecordIn.mk id (Some v0) runningTime)
                 = UsageRecordIn.num_or ops runningTime (Num.zero ops))
  /\ UsageRecordIn.minutes ops (UsageRecordIn.mk id None runningTime)
     = UsageRecordIn.num_or ops runningTime (Num.zero ops).
Proof.
  intros Hv.
  assert (Hm : UsageRecordIn.minutes ops (UsageRecordIn.mk id (Some v) runningTime) = v).
  { unfold UsageRecordIn.minutes.
    cbn [UsageRecordIn.usageMinutes UsageRecordIn.opt_or]. rewrite Hv.
    cbn [UsageRecordIn.num_or]. now rewrite Hv. }
  split; [exact Hm|]. split; [|split].
  - intros Hpos. unfold usageMapIn_step. cbv zeta. now rewrite Hm, Hpos.
  - intros v0 Hv0. unfold UsageRecordIn.minutes.
    cbn [UsageRecordIn.usageMinutes UsageRecordIn.runningTime UsageRecordIn.opt_or].
    now rewrite Hv0.
  - reflexivity.
Qed.

Lemma usageMinutes_mask_runningTime_witness :
  usageMapIn_step double_ops ∅
    (UsageRecordIn.mk "FRA-P8201-S15" (Some (S754_finite true 4503599627370496 (-52)))
                      (Some double_0_3)) = ∅
  /\ UsageRecordIn.minutes Z_ops (UsageRecordIn.mk "FRA-P8201-S15" (Some 45) (Some 30)) = 45.
Proof.
  split.
  - apply (proj1 (proj2 (usageMinutes_mask_runningTime double double_ops ∅ "FRA-P8201-S15"
                           (S754_finite true 4503599627370496 (-52)) (Some double_0_3)
                           eq_refl))).
    reflexivity.
  - apply (proj1 (usageMinutes_mask_runningTime Z Z_ops ∅ "FRA-P8201-S15" 45 (Some 30)
                    eq_refl)).
Defined.

(** ** The key an identifier is filed under *)

Lemma digits_4_5_exact (d post : string) :
  JS.all_digits d = true ->
  String.length d = 5%nat \/
  (String.length d = 4%nat /\ JS.leading_digits 1 post = EmptyString) ->
  JS.digits_4_5 (d +:+ post) = Some d.
Proof.
  intros Hd Hl. unfold JS.digits_4_5. cbv zeta.
  destruct d as [|c1 [|c2 [|c3 [|c4 [|c5 [|c6 d]]]]]]; cbn [String.length] in Hl;
    try (exfalso; lia);
    cbn [JS.all_digits] in Hd; rewrite !andb_true_iff in Hd;
    rewrite !app_cons, app_empty; cbn [JS.leading_digits].
  - destruct Hd as (-> & -> & -> & -> & _).
    destruct Hl as [Hl|[_ Hp]]; [lia|].
    cbn [JS.leading_digits] in Hp. destruct post as [|c post]; [reflexivity|].
    destruct (JS.is_digit c); [discriminate Hp|reflexivity].
  - destruct Hd as (-> & -> & -> & -> & -> & _). reflexivity.
Qed.

(** X12. The key of a usage record is read off its identifier: when nothing
    before the first [P] is a [P] and that [P] is followed by exactly four
    digits and then a non-digit or the end, or by five digits and then
    anything, the record is filed under exactly those digits. *)
Theorem match_P_captures_digits_after_first_P (pre d post : string) :
  JS.all_chars (fun c => negb (Ascii.eqb c "P")) pre = true ->
  JS.all_digits d = true ->
  String.length d = 5%nat \/
  (String.length d = 4%nat /\ JS.leading_digits 1 post = EmptyString) ->
  JS.match_P (pre +:+ String "P" (d +:+ post)) = Some d.
Proof.
  intros Hpre Hd Hl. induction pre as [|c pre IH].
  - rewrite app_empty. cbn [JS.match_P]. rewrite Ascii.eqb_refl.
    now rewrite digits_4_5_exact.
  - cbn [JS.all_chars] in Hpre. apply andb_true_iff in Hpre as [Hc Hpre].
    apply negb_true_iff in Hc. rewrite app_cons. cbn [JS.match_P].
    rewrite Hc. auto.
Qed.

Lemma match_P_captures_digits_after_first_P_witness :
  JS.match_P "FRA-P152501-S15" = Some "15250"
  /\ JS.match_P "FRA-P8201-S15.2R0_H100W16L100X" = Some "8201".
Proof.
  split.
  - apply (match_P_captures_digits_after_first_P "FRA-" "15250" "1-S15").
    + reflexivity.
    + reflexivity.
    + left. reflexivity.
  - apply (match_P_captures_digits_after_first_P "FRA-" "8201" "-S15.2R0_H100W16L100X").
    + reflexivity.
    + reflexivity.
    + right. split; reflexivity.
Defined.

(** ** Loading the tool definitions *)

Section Definitions.

Lemma find_app_last {A : Type} (p : A -> bool) (l : list A) (a : A) :
  List.find p (l ++ [a])
  = match List.find p l with
    | Some x => Some x
    | None => if p a then Some a else None
    end.
Proof.
  induction l as [|x l IH]; cbn [app List.find]; [reflexivity|].
  destruct (p x); [reflexivity|exact IH].
Qed.

(** After the writes, a key holds the last entry written under it. *)
Lemma fold_write_entry_lookup (tools : list ToolEntry.t)
    (baseDiameters : gmap string ToolDefinition.t) (k : string) :
  fold_left write_entry tools baseDiameters !! k
  = match last_entry k tools with
    | Some e => Some (ToolEntry.definition e)
    | None => baseDiameters !! k
    end.
Proof.
  revert baseDiameters; induction tools as [|t tools IH]; intros baseDiameters;
    [reflexivity|].
  cbn [fold_left]. rewrite IH. unfold last_entry. cbn [List.rev].
  rewrite find_app_last.
  destruct (List.find _ (List.rev tools)); [reflexivity|].
  unfold write_entry.
  destruct (String.eqb_spec (ToolEntry.key t) k) as [->|Hne].
  - apply lookup_insert_eq.
  - now apply lookup_insert_ne.
Qed.

(** Once an exception has ended the loop, nothing more is loaded. *)
Lemma fold_index_tool_thrown (l : list (option ToolEntry.t)) (st : loader) :
  thrown st = true -> fold_left index_tool l st = st.
Proof.
  intros H. induction l as [|t l IH]; [reflexivity|].
  cbn [fold_left]. unfold index_tool at 2. now rewrite H.
Qed.

Lemma fold_load_category_thrown (cats : list (option CategoryDefinition.t)) (st : loader) :
  thrown st = true -> fold_left load_category cats st = st.
Proof.
  intros H. induction cats as [|c cats IH]; [reflexivity|].
  cbn [fold_left]. unfold load_category at 2. now rewrite H.
Qed.

Lemma fold_index_tool_patterns (l : list (option ToolEntry.t)) (st : loader) :
  loaded_patterns (fold_left index_tool l st) = loaded_patterns st.
Proof.
  revert st; induction l as [|t l IH]; intros st; [reflexivity|].
  cbn [fold_left]. rewrite IH. unfold index_tool.
  destruct (thrown st); [reflexivity|]. now destruct t.
Qed.

(** A list of tools without [null] is written entry by entry. *)
Lemma fold_index_tool_all (l : list (option ToolEntry.t)) (ps : list string)
    (table : gmap string ToolDefinition.t) :
  forallb (fun t => match t with Some _ => true | None => false end) l = true ->
  fold_left index_tool l (mkLoader ps table false)
  = mkLoader ps
      (fold_left write_entry
         (List.flat_map (fun t => match t with Some e => [e] | None => [] end) l) table)
      false.
Proof.
  revert table; induction l as [|t l IH]; intros table; [reflexivity|].
  cbn [forallb]. rewrite andb_true_iff. intros [Ht Hl].
  destruct t as [e|]; [|discriminate Ht].
  cbn [fold_left List.flat_map app]. unfold index_tool at 2.
  cbn [thrown loaded_patterns loaded_table]. now rewrite IH.
Qed.

Lemma load_category_well_formed (c : option CategoryDefinition.t) (ps : list string)
    (table : gmap string ToolDefinition.t) :
  well_formed_category c = true ->
  load_category (mkLoader ps table false) c
  = mkLoader (ps ++ patterns_of c) (fold_left write_entry (tools_of c) table) false.
Proof.
  unfold well_formed_category, load_category, patterns_of, tools_of.
  cbn [thrown loaded_patterns loaded_table].
  destruct c as [c|]; [|discriminate].
  destruct (CategoryDefinition.pattern_items c) as [items|]; [|discriminate].
  intros H. cbn [list_or]. now apply fold_index_tool_all.
Qed.

Lemma fold_load_category_well_formed (cats : list (option CategoryDefinition.t))
    (ps : list string) (table : gmap string ToolDefinition.t) :
  forallb well_formed_category cats = true ->
  fold_left load_category cats (mkLoader ps table false)
  = mkLoader (ps ++ List.flat_map patterns_of cats)
             (fold_left write_entry (all_tools cats) table) false.
Proof.
  revert ps table; induction cats as [|c cats IH]; intros ps table.
  - intros _. cbn. now rewrite List.app_nil_r.
  - cbn [forallb]. rewrite andb_true_iff. intros [Hc Hcats].
    cbn [fold_left]. rewrite load_category_well_formed by exact Hc.
    rewrite IH by exact Hcats. unfold all_tools. cbn [List.flat_map].
    now rewrite <- List.app_assoc, fold_left_app.
Qed.

(** Whatever ends the loop, a loaded pattern was pushed for some category. *)
Lemma load_category_patterns (st : loader) (c : option CategoryDefinition.t) (p : string) :
  In p (loaded_patterns (load_category st c)) ->
  In p (loaded_patterns st) \/ In p (patterns_of c).
Proof.
  unfold load_category, patterns_of.
  destruct (thrown st); [now left|].
  destruct c as [c|]; [|now left].
  destruct (CategoryDefinition.pattern_items c) as [items|]; [|now left].
  rewrite fold_index_tool_patterns. cbn [loaded_patterns list_or].
  apply List.in_app_or.
Qed.

Lemma fold_load_category_patterns (cats : list (option CategoryDefinition.t))
    (st : loader) (p : string) :
  In p (loaded_patterns (fold_left load_category cats st)) ->
  In p (loaded_patterns st) \/ exists c, In c cats /\ In p (patterns_of c).
Proof.
  revert st; induction cats as [|c cats IH]; intros st; [now left|].
  cbn [fold_left]. intros H. apply IH in H as [H|(c' & Hc' & Hp)].
  - apply load_category_patterns in H as [H|H]; [now left|].
    right. exists c. split; [now left|exact H].
  - right. exists c'. split; [now right|exact Hp].
Qed.

(** [Object.values] returns the values of the object, each of them. *)
Lemma in_insert_by_index {A : Type} (x y : N * A) (l : list (N * A)) :
  In x (insert_by_index y l) <-> x = y \/ In x l.
Proof.
  induction l as [|z l IH]; cbn [insert_by_index In].
  - intuition congruence.
  - destruct (fst y <=? fst z)%N; cbn [In]; [intuition congruence|].
    rewrite IH. intuition congruence.
Qed.

Lemma in_sorted_by_index {A : Type} (x : N * A) (l : list (N * A)) :
  In x (fold_right insert_by_index [] l) <-> In x l.
Proof.
  induction l as [|y l IH]; [reflexivity|].
  cbn [fold_right In]. rewrite in_insert_by_index, IH. intuition congruence.
Qed.

Lemma in_object_values {A : Type} (fields : list (string * A)) (v : A) :
  In v (object_values fields) <-> exists name, In (name, v) fields.
Proof.
  unfold object_values, indexed_fields, named_fields.
  rewrite List.in_app_iff, !List.in_map_iff. split.
  - intros [((n & v') & Hv & Hin) | ((name & v') & Hv & Hin)]; cbn [snd] in Hv; subst v'.
    + apply in_sorted_by_index, List.in_flat_map in Hin as ((name & v') & Hf & Hin).
      cbn [fst snd] in Hin. destruct (array_index name); [|contradiction].
      destruct Hin as [[= _ ->]|[]]. now exists name.
    + apply List.filter_In in Hin as [Hin _]. now exists name.
  - intros (name & Hin). destruct (array_index name) as [n|] eqn:E.
    + left. exists (n, v). split; [reflexivity|].
      apply in_sorted_by_index, List.in_flat_map. exists (name, v).
      split; [exact Hin|]. cbn [fst snd]. rewrite E. now left.
    + right. exists (name, v). split; [reflexivity|].
      apply List.filter_In. split; [exact Hin|]. cbn [fst]. now rewrite E.
Qed.

Lemma loaded_table_lookup
    (categories : option (list (string * option CategoryDefinition.t))) (k : string) :
  forallb well_formed_category (object_values (list_or categories)) = true ->
  snd (loadDefinitions (ParsedDefinitions categories)) !! k
  = ToolEntry.definition <$> last_entry k (all_tools (object_values (list_or categories))).
Proof.
  intros Hwf. unfold loadDefinitions. cbv zeta. cbn [snd].
  rewrite fold_load_category_well_formed by exact Hwf. cbn [loaded_table].
  rewrite fold_write_entry_lookup, lookup_empty.
  destruct (last_entry _ _); reflexivity.
Qed.

Lemma is_matrix_row_exists (patterns : list string) (tool : InventoryRow.t) :
  is_matrix_row patterns tool = true
  <-> exists p, In p patterns /\
                JS.includes (JS.str_or (InventoryRow.toolCode tool) EmptyString) p = true.
Proof. unfold is_matrix_row. cbv zeta. apply existsb_exists. Qed.

Lemma in_flat_map_patterns (cats : list (option CategoryDefinition.t)) (p : string) :
  In p (List.flat_map patterns_of cats)
  <-> exists c, In (Some c) cats /\ In p (list_or (CategoryDefinition.pattern_items c)).
Proof.
  rewrite List.in_flat_map. split.
  - intros ([c|] & Hc & Hp); [now exists c|contradiction].
  - intros (c & Hc & Hp). now exists (Some c).
Qed.

End Definitions.

(** X13. The patterns of the matrix view come from the definitions file:
    without a file, or with an unparsable one, the built-in list is used;
    once a file is parsed the built-in list is dropped and every pattern in
    use is a pattern of some category of the file, also when an exception
    cut the loading short; and when the loop reads the file to its end (no
    [null] category, no [codePatterns] that cannot be spread, no [null]
    tool) a row is shown exactly when its code contains a pattern of some
    category. *)
Theorem loaded_patterns_decide_the_view
    (categories : option (list (string * option CategoryDefinition.t)))
    (inventory : list InventoryRow.t) (tool : InventoryRow.t) :
  fst (loadDefinitions NoDefinitions) = default_matrixCodePatterns
  /\ fst (loadDefinitions UnparsableDefinitions) = default_matrixCodePatterns
  /\ (forall p, In p (fst (loadDefinitions (ParsedDefinitions categories))) ->
                exists name c, In (name, Some c) (list_or categories) /\
                               In p (list_or (CategoryDefinition.pattern_items c)))
  /\ (forallb well_formed_category (object_values (list_or categories)) = true ->
      fst (loadDefinitions (ParsedDefinitions categories))
      = List.flat_map patterns_of (object_values (list_or categories))
      /\ (In tool (filteredTools (fst (loadDefinitions (ParsedDefinitions categories)))
                                 inventory)
          <-> In tool inventory /\
              exists name c p,
                In (name, Some c) (list_or categories) /\
                In p (list_or (CategoryDefinition.pattern_items c)) /\
                JS.includes (JS.str_or (InventoryRow.toolCode tool) EmptyString) p = true)).
Proof.
  split; [reflexivity|]. split; [reflexivity|]. split.
  - intros p Hp. unfold loadDefinitions in Hp. cbv zeta in Hp. cbn [fst] in Hp.
    apply fold_load_category_patterns in Hp as [[]|(c & Hc & Hp)].
    destruct c as [c|]; [|contradiction].
    apply in_object_values in Hc as [name Hname]. now exists name, c.
  - intros Hwf.
    assert (Hp : fst (loadDefinitions (ParsedDefinitions categories))
                 = List.flat_map patterns_of (object_values (list_or categories))).
    { unfold loadDefinitions. cbv zeta. cbn [fst].
      now rewrite fold_load_category_well_formed. }
    split; [exact Hp|].
    rewrite filteredTools_In, is_matrix_row_exists, Hp.
    split; intros [Hin Hex]; (split; [exact Hin|]).
    + destruct Hex as (p & Hp' & Hinc).
      apply in_flat_map_patterns in Hp' as (c & Hc & Hpc).
      apply in_object_values in Hc as [name Hname]. now exists name, c, p.
    + destruct Hex as (name & c & p & Hc & Hpc & Hinc). exists p. split; [|exact Hinc].
      apply in_flat_map_patterns. exists c. split; [|exact Hpc].
      apply in_object_values. now exists name.
Qed.

Lemma loaded_patterns_decide_the_view_witness :
  fst (loadDefinitions (ParsedDefinitions (Some
         [("ecut", Some (CategoryDefinition.mk (CategoryDefinition.PatternList ["8400"])
                                               CategoryDefinition.NoTools));
          ("broken", None);
          ("mfc", Some (CategoryDefinition.mk (CategoryDefinition.PatternList ["8201"])
                                              CategoryDefinition.NoTools))])))
  = ["8400"]
  /\ fst (loadDefinitions (ParsedDefinitions (Some
         [("ecut", Some (CategoryDefinition.mk (CategoryDefinition.PatternList ["8400"])
                                               CategoryDefinition.NoTools));
          ("7", Some (CategoryDefinition.mk (CategoryDefinition.PatternString "XF")
                                            CategoryDefinition.NoTools))])))
     = ["X"; "F"; "8400"].
Proof.
  split; [reflexivity|].
  apply (proj1 (proj2 (proj2 (proj2 (loaded_patterns_decide_the_view (Some
         [("ecut", Some (CategoryDefinition.mk (CategoryDefinition.PatternList ["8400"])
                                               CategoryDefinition.NoTools));
          ("7", Some (CategoryDefinition.mk (CategoryDefinition.PatternString "XF")
                                            CategoryDefinition.NoTools))])
         [] (InventoryRow.mk None None)))) eq_refl)).
Defined.

(** X14. Round trip through the definitions table, for a file the loop reads
    to its end (no [null] category, no [codePatterns] that cannot be spread,
    no [null] tool): a key holds the fields of the last tool entry written
    under it, the categories being visited in the order of [Object.values]
    (names that are array indices first, in ascending order, then the others
    in file order), and no entry otherwise; a tool whose code is [null] is
    filed under the key [null]. So for a non-empty code listed in the file
    [getToolData] returns the data of that last entry, with 0 and the empty
    prefix for the fields it lacks. *)
Theorem loaded_definition_last_wins
    (categories : option (list (string * option CategoryDefinition.t))) (code : string) :
  forallb well_formed_category (object_values (list_or categories)) = true ->
  snd (loadDefinitions (ParsedDefinitions categories)) !! code
  = ToolEntry.definition
      <$> last_entry code (all_tools (object_values (list_or categories)))
  /\ (forall e, code <> EmptyString ->
                last_entry code (all_tools (object_values (list_or categories))) = Some e ->
                getToolData (snd (loadDefinitions (ParsedDefinitions categories))) (Some code)
                = ToolData.mk (JS.num_or (ToolEntry.diameter e) 0%Q)
                              (JS.num_or (ToolEntry.toolLife e) 0%Q)
                              (JS.str_or (ToolEntry.codePrefix e) EmptyString)).
Proof.
  intros Hwf. split; [now apply loaded_table_lookup|].
  intros e Hne He. destruct code as [|c s]; [congruence|].
  unfold getToolData. cbn [JS.truthy negb JS.str_or]. cbv zeta.
  now rewrite loaded_table_lookup, He.
Qed.

Lemma loaded_definition_last_wins_witness :
  getToolData (snd (loadDefinitions (ParsedDefinitions (Some sample_categories))))
              (Some "RT-8400300")
  = ToolData.mk 3%Q 90%Q "8400"
  /\ getToolData (snd (loadDefinitions (ParsedDefinitions (Some sample_categories))))
                 (Some "null")
     = ToolData.mk 7%Q 0%Q EmptyString.
Proof.
  split.
  - apply (proj2 (loaded_definition_last_wins (Some sample_categories) "RT-8400300" eq_refl)
             (ToolEntry.mk (ToolEntry.Code "RT-8400300") (Some 3%Q) (Some 90%Q) (Some "8400"))).
    + discriminate.
    + reflexivity.
  - apply (proj2 (loaded_definition_last_wins (Some sample_categories) "null" eq_refl)
             (ToolEntry.mk ToolEntry.Null (Some 7%Q) None None)).
    + discriminate.
    + reflexivity.
Defined.

(** X15. Without a usable definitions file nothing is known about any tool:
    the view is the one of the built-in patterns and every tool in it has
    diameter 0, tool life 0 and no code prefix, so that the usage merge
    falls back on the tool id for each of them. *)
Theorem no_definitions_no_tool_data (file : DefinitionsFile) (inventory : list InventoryRow.t) :
  file = NoDefinitions \/ file = UnparsableDefinitions ->
  matrixView file inventory = matrixTools default_matrixCodePatterns ∅ inventory
  /\ Forall (fun t => MatrixTool.diameter t = 0%Q /\ MatrixTool.toolLife t = 0%Q /\
                      MatrixTool.codePrefix t = EmptyString /\
                      codePattern t
                      = (fun id => default EmptyString (JS.match_RT id)) <$> MatrixTool.toolId t)
            (matrixView file inventory).
Proof.
  intros Hfile.
  assert (Hview : matrixView file inventory
                  = matrixTools default_matrixCodePatterns ∅ inventory)
    by (destruct Hfile as [-> | ->]; reflexivity).
  split; [exact Hview|]. rewrite Hview.
  unfold matrixTools. apply List.Forall_forall. intros t Ht.
  apply List.in_map_iff in Ht as [row [<- _]].
  assert (Hdata : getToolData ∅ (InventoryRow.toolCode row) = ToolData.neutral).
  { unfold getToolData. destruct (negb _); [reflexivity|]. cbv zeta.
    now rewrite !lookup_empty. }
  unfold toMatrixTool, codePattern. cbv zeta.
  cbn [MatrixTool.diameter MatrixTool.toolLife MatrixTool.codePrefix MatrixTool.toolId].
  rewrite Hdata. cbn [ToolData.diameter ToolData.toolLife ToolData.codePrefix
                       ToolData.neutral JS.truthy].
  repeat split.
  destruct (InventoryRow.toolCode row) as [id|]; [|reflexivity].
  cbn [fmap option_fmap option_map]. now destruct (JS.match_RT id).
Qed.

Lemma no_definitions_no_tool_data_witness :
  matrixView UnparsableDefinitions sample_inventory
  = matrixTools default_matrixCodePatterns ∅ sample_inventory.
Proof.
  apply (no_definitions_no_tool_data UnparsableDefinitions sample_inventory).
  right. reflexivity.
Defined.

(** ** Serving tool images *)

Section Images.

Lemma no_dot_app_dot (a b : string) : no_dot (a +:+ String "." b) = false.
Proof.
  unfold no_dot. induction a as [|c a IH].
  - rewrite app_empty. cbn [JS.all_chars]. now rewrite Ascii.eqb_refl.
  - rewrite app_cons. cbn [JS.all_chars]. rewrite IH. apply andb_false_r.
Qed.

Lemma nonempty_no_dot_app_dot (a b : string) :
  nonempty_no_dot (a +:+ String "." b) = false.
Proof.
  pose proof (no_dot_app_dot a b) as H. unfold nonempty_no_dot.
  destruct (a +:+ String "." b); [reflexivity|exact H].
Qed.

Lemma baseFilename_strips (base ext : string) :
  nonempty_no_dot ext = true -> baseFilename (base +:+ String "." ext) = base.
Proof.
  intros Hext. induction base as [|c base IH].
  - rewrite app_empty. cbn [baseFilename]. now rewrite Ascii.eqb_refl, Hext.
  - rewrite app_cons. cbn [baseFilename].
    rewrite nonempty_no_dot_app_dot, andb_false_r. now f_equal.
Qed.

Lemma baseFilename_no_dot (s : string) : no_dot s = true -> baseFilename s = s.
Proof.
  unfold no_dot. induction s as [|c s IH]; [reflexivity|].
  cbn [JS.all_chars baseFilename]. rewrite andb_true_iff, negb_true_iff.
  intros [Hc Hs]. rewrite Hc. cbn [andb]. f_equal. auto.
Qed.

Lemma baseFilename_trailing_dot (a : string) :
  baseFilename (a +:+ ".") = a +:+ ".".
Proof.
  induction a as [|c a IH].
  - rewrite app_empty. cbn [baseFilename nonempty_no_dot]. now rewrite andb_false_r.
  - rewrite app_cons. cbn [baseFilename].
    rewrite nonempty_no_dot_app_dot, andb_false_r. now f_equal.
Qed.

Variable existsSync : string -> bool.
Variable join : string -> string -> string.

Lemma foundPath_exists (manufacturer filename p : string) :
  foundPath existsSync join manufacturer filename = Some p -> existsSync p = true.
Proof.
  unfold foundPath. cbv zeta.
  destruct (existsSync (join manufacturer filename)) eqn:E.
  - now intros [= <-].
  - intros H. now apply List.find_some in H.
Qed.

Lemma foundPath_None (manufacturer filename : string) :
  foundPath existsSync join manufacturer filename = None
  <-> existsSync (join manufacturer filename) = false /\
      forall ext, In ext extensions ->
                  existsSync (join manufacturer (baseFilename filename +:+ ext)) = false.
Proof.
  unfold foundPath. cbv zeta.
  destruct (existsSync (join manufacturer filename)) eqn:E.
  - split; [discriminate|intros [H _]; discriminate H].
  - split.
    + intros H. split; [reflexivity|]. intros ext Hext.
      apply (List.find_none _ _ H). apply List.in_map_iff. now exists ext.
    + intros [_ H].
      destruct (List.find existsSync _) as [p|] eqn:F; [|reflexivity].
      apply List.find_some in F as [Hin Hp].
      apply List.in_map_iff in Hin as (ext & <- & Hext).
      rewrite (H ext Hext) in Hp. discriminate Hp.
Qed.

End Images.

(** X16. The base name the image handler retries with: a last extension
    ([.] followed by characters other than [.], up to the end) is removed,
    and only that one; a name without a dot, or ending in a dot, is kept as
    it is. *)
Theorem baseFilename_removes_last_extension (base ext : string) :
  nonempty_no_dot ext = true ->
  baseFilename (base +:+ String "." ext) = base
  /\ baseFilename ext = ext
  /\ baseFilename (base +:+ ".") = base +:+ ".".
Proof.
  intros Hext. split; [now apply baseFilename_strips|]. split.
  - apply baseFilename_no_dot. destruct ext; [discriminate Hext|exact Hext].
  - apply baseFilename_trailing_dot.
Qed.

Lemma baseFilename_removes_last_extension_witness :
  baseFilename "8400.tar.png" = "8400.tar".
Proof.
  apply (proj1 (baseFilename_removes_last_extension "8400.tar" "png" eq_refl)).
Defined.

(** X17. The image handler serves a file only if it exists: the path it
    finds exists; the requested name is served as it is whenever it exists;
    otherwise the first of [.JPG .jpg .jfif .gif .png .jpeg] under which the
    base name exists is served; and the answer is 404 exactly when neither
    the requested name nor any of these six exists. *)
Theorem foundPath_serves_existing_file
    (existsSync : string -> bool) (join : string -> string -> string)
    (manufacturer filename : string) :
  (forall p, foundPath existsSync join manufacturer filename = Some p ->
             existsSync p = true)
  /\ (existsSync (join manufacturer filename) = true ->
      foundPath existsSync join manufacturer filename = Some (join manufacturer filename))
  /\ (existsSync (join manufacturer filename) = false ->
      foundPath existsSync join manufacturer filename
      = List.find existsSync
          (List.map (fun ext => join manufacturer (baseFilename filename +:+ ext))
                    [".JPG"; ".jpg"; ".jfif"; ".gif"; ".png"; ".jpeg"]))
  /\ (foundPath existsSync join manufacturer filename = None
      <-> existsSync (join manufacturer filename) = false /\
          forall ext, In ext [".JPG"; ".jpg"; ".jfif"; ".gif"; ".png"; ".jpeg"] ->
                      existsSync (join manufacturer (baseFilename filename +:+ ext)) = false).
Proof.
  split; [intros p; apply foundPath_exists|]. split; [|split].
  - intros H. unfold foundPath. cbv zeta. now rewrite H.
  - intros H. unfold foundPath. cbv zeta. now rewrite H.
  - apply foundPath_None.
Qed.

Lemma foundPath_serves_existing_file_witness :
  foundPath (fun p => String.eqb p "FRA/8400.jfif")
            (fun m n => m +:+ "/" +:+ n) "FRA" "8400.png"
  = Some "FRA/8400.jfif".
Proof.
  rewrite (proj1 (proj2 (proj2 (foundPath_serves_existing_file
             (fun p => String.eqb p "FRA/8400.jfif")
             (fun m n => m +:+ "/" +:+ n) "FRA" "8400.png"))));
    reflexivity.
Defined.

(** * Properties of the logger *)

Section LoggerFacts.

Lemma take_app_exact (a b : string) : JS.take (String.length a) (a +:+ b) = a.
Proof.
  induction a as [|c a IH]; [now destruct b|].
  rewrite app_cons. cbn [String.length JS.take]. now f_equal.
Qed.

Lemma length_app_string (a b : string) :
  String.length (a +:+ b) = (String.length a + String.length b)%nat.
Proof.
  induction a as [|c a IH]; [reflexivity|].
  rewrite app_cons. cbn [String.length]. now rewrite IH.
Qed.

Lemma replace_first_T (date rest : string) :
  JS.all_chars (fun c => negb (Ascii.eqb c "T")) date = true ->
  Logger.replace_first "T" " " (date +:+ String "T" rest) = date +:+ String " " rest.
Proof.
  induction date as [|c date IH]; intros H.
  - rewrite !app_empty. cbn [Logger.replace_first JS.startsWith].
    rewrite Ascii.eqb_refl. reflexivity.
  - cbn [JS.all_chars] in H. apply andb_true_iff in H as [Hc Hd].
    apply negb_true_iff in Hc. rewrite !app_cons.
    cbn [Logger.replace_first JS.startsWith]. rewrite Ascii.eqb_sym, Hc.
    f_equal. auto.
Qed.

Lemma writeLog_level_free (e : Logger.env) (st st' : Logger.state) (level message : string) :
  Logger.logFile st = Logger.logFile st' ->
  Logger.consoleEnabled st = Logger.consoleEnabled st' ->
  Logger.writeLog e st level message = Logger.writeLog e st' level message.
Proof. intros Hf Hc. unfold Logger.writeLog. now rewrite Hf, Hc. Qed.

End LoggerFacts.

(** X18. The log level filters nothing but [debug]: [debug] writes only
    when the level is exactly [debug], and then what [writeLog] writes;
    [info], [warn] and [error] write the same whatever the level is, even
    under a level such as [error]. *)
Theorem logLevel_gates_only_debug
    (e : Logger.env) (st : Logger.state) (level' message : string) :
  let st' := Logger.mkState level' (Logger.logFile st) (Logger.consoleEnabled st) in
  (Logger.logLevel st <> "debug" -> Logger.debug e st message = [])
  /\ (Logger.logLevel st = "debug" ->
      Logger.debug e st message = Logger.writeLog e st "debug" message)
  /\ Logger.info e st' message = Logger.info e st message
  /\ Logger.warn e st' message = Logger.warn e st message
  /\ Logger.error e st' message = Logger.error e st message.
Proof.
  intros st'. split; [|split].
  - intros Hne. unfold Logger.debug.
    destruct (String.eqb_spec (Logger.logLevel st) "debug"); [contradiction|reflexivity].
  - intros H. unfold Logger.debug. now rewrite H.
  - repeat split; apply writeLog_level_free; reflexivity.
Qed.

Lemma logLevel_gates_only_debug_witness :
  Logger.debug (Logger.mkEnv "2025-01-02T03:04:05.678Z" (fun _ => true) (fun _ => None)
                  (fun _ _ => None) (fun p => p) (fun a b => a +:+ "/" +:+ b))
               Logger.initial "scan started" = [].
Proof.
  apply (proj1 (logLevel_gates_only_debug
                  (Logger.mkEnv "2025-01-02T03:04:05.678Z" (fun _ => true) (fun _ => None)
                     (fun _ _ => None) (fun p => p) (fun a b => a +:+ "/" +:+ b))
                  Logger.initial "error" "scan started")).
  discriminate.
Defined.

(** X19. What one [writeLog] does. With a log file set and writable, the
    line is appended to it; with a log file whose write fails, one line
    naming the failure goes to stderr instead; without a log file, nothing
    but the console is touched. With the console enabled the console line
    comes first in each case, and console and file receive the same line,
    the plain message and a newline. So a call has at most two effects. *)
Theorem writeLog_sinks (e : Logger.env) (st : Logger.state) (level message : string) :
  let line := Logger.plainMessage e level message +:+ Logger.newline in
  (List.length (Logger.writeLog e st level message) <= 2)%nat
  /\ (Logger.consoleEnabled st = true ->
      List.hd_error (Logger.writeLog e st level message) = Some (Logger.Stdout line))
  /\ (Logger.consoleEnabled st = false ->
      ~ In (Logger.Stdout line) (Logger.writeLog e st level message))
  /\ Forall (fun eff =>
               eff = Logger.Stdout line
               \/ (exists f, eff = Logger.AppendFile f line /\ Logger.logFile st = Some f /\
                             Logger.appendFileSync e f line = None)
               \/ (exists f m, eff = Logger.Stderr ("Failed to write to log file: " +:+ m
                                                    +:+ Logger.newline) /\
                               Logger.logFile st = Some f /\
                               Logger.appendFileSync e f line = Some m))
            (Logger.writeLog e st level message)
  /\ (forall f, Logger.logFile st = Some f -> f <> EmptyString ->
                Logger.appendFileSync e f line = None ->
                Logger.writeLog e st level message
                = (if Logger.consoleEnabled st then [Logger.Stdout line] else [])
                  ++ [Logger.AppendFile f line])
  /\ (forall f m, Logger.logFile st = Some f -> f <> EmptyString ->
                  Logger.appendFileSync e f line = Some m ->
                  Logger.writeLog e st level message
                  = (if Logger.consoleEnabled st then [Logger.Stdout line] else [])
                    ++ [Logger.Stderr ("Failed to write to log file: " +:+ m
                                       +:+ Logger.newline)])
  /\ (Logger.logFile st = None \/ Logger.logFile st = Some EmptyString ->
      Logger.writeLog e st level message
      = if Logger.consoleEnabled st then [Logger.Stdout line] else []).
Proof.
  intros line.
  assert (Hfile : (forall f, Logger.logFile st = Some f -> f <> EmptyString ->
                     Logger.appendFileSync e f line = None ->
                     Logger.writeLog e st level message
                     = (if Logger.consoleEnabled st then [Logger.Stdout line] else [])
                       ++ [Logger.AppendFile f line])
                  /\ (forall f m, Logger.logFile st = Some f -> f <> EmptyString ->
                        Logger.appendFileSync e f line = Some m ->
                        Logger.writeLog e st level message
                        = (if Logger.consoleEnabled st then [Logger.Stdout line] else [])
                          ++ [Logger.Stderr ("Failed to write to log file: " +:+ m
                                             +:+ Logger.newline)])
                  /\ (Logger.logFile st = None \/ Logger.logFile st = Some EmptyString ->
                      Logger.writeLog e st level message
                      = if Logger.consoleEnabled st then [Logger.Stdout line] else [])).
  { unfold Logger.writeLog. cbv zeta. fold line. split; [|split].
    - intros f Hf Hne Ha. rewrite Hf. destruct f as [|c f]; [congruence|].
      cbn [JS.truthy JS.str_or]. now rewrite Ha.
    - intros f m Hf Hne Ha. rewrite Hf. destruct f as [|c f]; [congruence|].
      cbn [JS.truthy JS.str_or]. now rewrite Ha.
    - intros [-> | ->]; cbn [JS.truthy]; apply List.app_nil_r. }
  cut ((List.length (Logger.writeLog e st level message) <= 2)%nat
  /\ (Logger.consoleEnabled st = true ->
      List.hd_error (Logger.writeLog e st level message) = Some (Logger.Stdout line))
  /\ (Logger.consoleEnabled st = false ->
      ~ In (Logger.Stdout line) (Logger.writeLog e st level message))
  /\ Forall (fun eff =>
               eff = Logger.Stdout line
               \/ (exists f, eff = Logger.AppendFile f line /\ Logger.logFile st = Some f /\
                             Logger.appendFileSync e f line = None)
               \/ (exists f m, eff = Logger.Stderr ("Failed to write to log file: " +:+ m
                                                    +:+ Logger.newline) /\
                               Logger.logFile st = Some f /\
                               Logger.appendFileSync e f line = Some m))
            (Logger.writeLog e st level message)); [tauto|].
  clear Hfile.
  unfold Logger.writeLog. cbv zeta. fold line.
  destruct (Logger.consoleEnabled st) eqn:Hc;
    destruct (Logger.logFile st) as [[|c f]|] eqn:Hf; cbn [JS.truthy JS.str_or app];
    try destruct (Logger.appendFileSync e (String c f) line) as [m|] eqn:Ha;
    cbn [List.length List.hd_error];
    (split; [lia|]); (split; [try reflexivity; discriminate|]);
    (split; [try discriminate; intros _ Hin; cbn [In] in Hin;
             intuition discriminate|]);
    repeat (apply List.Forall_cons || apply List.Forall_nil);
    first [ left; reflexivity
          | right; left; eexists; repeat split; eassumption
          | right; right; eexists _, _; repeat split; eassumption ].
Qed.

Lemma writeLog_sinks_witness :
  List.hd_error
    (Logger.writeLog
       (Logger.mkEnv "2025-01-02T03:04:05.678Z" (fun _ => true) (fun _ => None)
          (fun _ _ => Some "EACCES") (fun p => p) (fun a b => a +:+ "/" +:+ b))
       (Logger.mkState "info" (Some "logs/tool-manager.log") true) "warn" "disk full")
  = Some (Logger.Stdout ("[2025-01-02 03:04:05] [WARN] disk full" +:+ Logger.newline)).
Proof.
  apply (proj1 (proj2 (writeLog_sinks
           (Logger.mkEnv "2025-01-02T03:04:05.678Z" (fun _ => true) (fun _ => None)
              (fun _ _ => Some "EACCES") (fun p => p) (fun a b => a +:+ "/" +:+ b))
           (Logger.mkState "info" (Some "logs/tool-manager.log") true) "warn" "disk full"))).
  reflexivity.
Defined.

(** X20. [initialize] resets the level (to [info] when none is given) and
    the console switch (on unless [console] is exactly [false]), but it
    never clears the log file: without a [file] in the configuration the
    earlier file is kept and nothing outside is touched; with one, the file
    is set even when creating its directory fails, and the directory is
    created only when it is missing. *)
Theorem initialize_keeps_log_file (e : Logger.env) (st : Logger.state) (cfg : Logger.config) :
  let r := Logger.initialize e st cfg in
  Logger.logLevel (Logger.after r) = JS.str_or (Logger.level cfg) "info"
  /\ (Logger.consoleEnabled (Logger.after r) = false <-> Logger.console cfg = Some false)
  /\ (JS.truthy (Logger.file cfg) = false ->
      Logger.logFile (Logger.after r) = Logger.logFile st /\
      Logger.effects r = [] /\ Logger.thrown r = None)
  /\ (JS.truthy (Logger.file cfg) = true ->
      Logger.logFile (Logger.after r) = Logger.file cfg /\
      (Logger.effects r <> [] ->
       Logger.existsSync e (Logger.dirname e (JS.str_or (Logger.file cfg) EmptyString)) = false)
      /\ (Logger.thrown r <> None ->
          Logger.existsSync e (Logger.dirname e (JS.str_or (Logger.file cfg) EmptyString))
          = false)).
Proof.
  intros r. subst r. unfold Logger.initialize, Logger.ensureLogDirectory. cbv zeta.
  destruct (JS.truthy (Logger.file cfg)) eqn:Hfile; cbn [Logger.logFile Logger.logLevel
                                                          Logger.consoleEnabled].
  - rewrite Hfile.
    destruct (Logger.existsSync e _) eqn:Hex; cbn [negb];
      [|destruct (Logger.mkdirSync e _)];
      cbn [Logger.after Logger.effects Logger.thrown Logger.logFile Logger.logLevel
           Logger.consoleEnabled];
      (split; [reflexivity|]);
      (split; [destruct (Logger.console cfg) as [[]|]; split; congruence|]);
      (split; [discriminate|]); intros _; repeat split; congruence.
  - cbn [Logger.after Logger.effects Logger.thrown Logger.logFile Logger.logLevel
         Logger.consoleEnabled].
    split; [reflexivity|].
    split; [destruct (Logger.console cfg) as [[]|]; split; congruence|].
    split; [intros _; repeat split|discriminate].
Qed.

Lemma initialize_keeps_log_file_witness :
  Logger.logFile
    (Logger.after
       (Logger.initialize
          (Logger.mkEnv "2025-01-02T03:04:05.678Z" (fun _ => true) (fun _ => None)
             (fun _ _ => None) (fun p => p) (fun a b => a +:+ "/" +:+ b))
          (Logger.mkState "debug" (Some "logs/old.log") false)
          (Logger.mkConfig None None None)))
  = Some "logs/old.log".
Proof.
  apply (proj1 (proj2 (proj2 (initialize_keeps_log_file
           (Logger.mkEnv "2025-01-02T03:04:05.678Z" (fun _ => true) (fun _ => None)
              (fun _ _ => None) (fun p => p) (fun a b => a +:+ "/" +:+ b))
           (Logger.mkState "debug" (Some "logs/old.log") false)
           (Logger.mkConfig None None None))))).
  reflexivity.
Defined.

(** X21. The timestamp of a log line: when the clock prints a date of ten
    characters without [T], a [T], and a time of eight characters followed
    by anything, the timestamp is the date, a space and the time; it never
    has more than 19 characters. *)
Theorem getTimestamp_date_space_time (e : Logger.env) (date time rest : string) :
  Logger.now e = date +:+ String "T" (time +:+ rest) ->
  JS.all_chars (fun c => negb (Ascii.eqb c "T")) date = true ->
  String.length date = 10%nat -> String.length time = 8%nat ->
  Logger.getTimestamp e = date +:+ String " " time
  /\ (String.length (Logger.getTimestamp e) <= 19)%nat.
Proof.
  intros Hnow Hdate Hld Hlt.
  assert (Hts : Logger.getTimestamp e = date +:+ String " " time).
  { unfold Logger.getTimestamp. rewrite Hnow, replace_first_T by exact Hdate.
    replace (date +:+ String " " (time +:+ rest))
      with ((date +:+ String " " time) +:+ rest)
      by (rewrite app_assoc_string, app_cons; reflexivity).
    replace 19%nat with (String.length (date +:+ String " " time))
      by (rewrite length_app_string; cbn [String.length]; lia).
    apply take_app_exact. }
  split; [exact Hts|].
  rewrite Hts, length_app_string. cbn [String.length]. lia.
Qed.

Lemma getTimestamp_date_space_time_witness :
  Logger.getTimestamp
    (Logger.mkEnv "2025-01-02T03:04:05.678Z" (fun _ => true) (fun _ => None)
       (fun _ _ => None) (fun p => p) (fun a b => a +:+ "/" +:+ b))
  = "2025-01-02 03:04:05".
Proof.
  apply (proj1 (getTimestamp_date_space_time
                  (Logger.mkEnv "2025-01-02T03:04:05.678Z" (fun _ => true) (fun _ => None)
                     (fun _ _ => None) (fun p => p) (fun a b => a +:+ "/" +:+ b))
                  "2025-01-02" "03:04:05" ".678Z"
                  eq_refl eq_refl eq_refl eq_refl)).
Defined.

(** * Properties of the configuration and scan handlers *)

Section Handlers.

Lemma ensure_and_process_no_start (c : Server.calls) (st : Server.state) :
  ~ In Server.Start (snd (fst (Server.ensure_and_process c st)))
  /\ ~ In Server.Stop (snd (fst (Server.ensure_and_process c st)))
  /\ Server.cfg (fst (fst (Server.ensure_and_process c st))) = Server.cfg st
  /\ (Server.executor st = true \/ Server.construct_error c = None ->
      Server.executor (fst (fst (Server.ensure_and_process c st))) = true).
Proof.
  unfold Server.ensure_and_process. cbv zeta.
  destruct (Server.executor st) eqn:He; [|destruct (Server.construct_error c) eqn:Hc];
    cbn [fst snd app In Server.cfg Server.executor];
    repeat split; try (intros H; intuition discriminate); try reflexivity; try assumption.
Qed.

Lemma postScan_parts (c : Server.calls) (st : Server.state) :
  fst (Server.postScan c st) = fst (Server.ensure_and_process c st)
  /\ fst (Server.postTriggerScan c st) = fst (Server.ensure_and_process c st).
Proof.
  unfold Server.postScan, Server.postTriggerScan.
  destruct (Server.ensure_and_process c st) as [[st' commands] [details|]];
    [|destruct (Server.getAllTools_error c)]; split; reflexivity.
Qed.

Lemma postConfig_running (c : Server.calls) (st : Server.state) (b : Server.body)
    (testMode : bool) :
  Server.executor st = true ->
  Server.body_testMode b = Some testMode ->
  Server.body_autoRun b = Some true ->
  snd (fst (Server.postConfig c st b)) = []
  /\ snd (Server.postConfig c st b) = Server.Ok testMode true
  /\ Server.autoMode (Server.cfg (fst (fst (Server.postConfig c st b)))) = true.
Proof.
  intros He Ht Ha. unfold Server.postConfig. rewrite Ht, Ha, He.
  cbn. repeat split.
Qed.

End Handlers.

(** X22. What [POST /api/config] leaves behind. A request whose [testMode]
    is not a boolean is refused and changes nothing. Any other request
    stores [testMode] and [autoRun] (false when missing) in the
    configuration, even if it then fails with 500; when it succeeds the
    answer repeats the two values and an executor object exists exactly when
    [autoRun] is set. An executor is started only if none existed, and
    stopped only if one existed and [autoRun] is off; a failure leaves the
    executor as it was. *)
Theorem postConfig_outcome (c : Server.calls) (st : Server.state) (b : Server.body) :
  let st' := fst (fst (Server.postConfig c st b)) in
  let commands := snd (fst (Server.postConfig c st b)) in
  let resp := snd (Server.postConfig c st b) in
  let autoRun := default false (Server.body_autoRun b) in
  (Server.body_testMode b = None -> st' = st /\ commands = [] /\ resp = Server.BadRequest)
  /\ (forall testMode, Server.body_testMode b = Some testMode ->
        Server.testMode (Server.cfg st') = testMode
        /\ Server.autoMode (Server.cfg st') = autoRun
        /\ (forall t a, resp = Server.Ok t a ->
                        t = testMode /\ a = autoRun /\ Server.executor st' = autoRun)
        /\ (In Server.Start commands <->
            autoRun = true /\ Server.executor st = false /\ Server.construct_error c = None)
        /\ (In Server.Stop commands <-> autoRun = false /\ Server.executor st = true)
        /\ (forall details, resp = Server.InternalError details ->
                            Server.executor st' = Server.executor st)).
Proof.
  intros st' commands resp autoRun. subst st' commands resp autoRun.
  unfold Server.postConfig. cbv zeta.
  destruct (Server.body_testMode b) as [tm|].
  - split; [discriminate|]. intros testMode [= ->].
    destruct (default false (Server.body_autoRun b)) eqn:Ha;
      destruct (Server.executor st) eqn:He; cbn [andb negb];
      try destruct (Server.construct_error c) eqn:Hc;
      try destruct (Server.stop_error c) eqn:Hs;
      cbn [fst snd Server.cfg Server.executor Server.testMode Server.autoMode In];
      repeat split; try congruence; try discriminate;
      try (intros; intuition congruence); try (intros [= <- <-]; reflexivity);
      try (intros H; inversion H; reflexivity); auto.
  - split; [intros _; repeat split|discriminate].
Qed.

Lemma postConfig_outcome_witness :
  fst (fst (Server.postConfig
              (Server.mkCalls None (Some (Some "busy")) None None 0)
              (Server.mkState (Server.mkConfig false true None None None) true)
              (Server.mkBody None None (Some "/tmp/w") (Some false))))
  = Server.mkState (Server.mkConfig false true None None None) true.
Proof.
  apply (proj1 (postConfig_outcome
           (Server.mkCalls None (Some (Some "busy")) None None 0)
           (Server.mkState (Server.mkConfig false true None None None) true)
           (Server.mkBody None None (Some "/tmp/w") (Some false)))).
  reflexivity.
Defined.

(** X23. The scan handlers create the executor but never start it, and an
    executor that exists is not started by a later configuration request:
    after [POST /api/scan] or [POST /api/trigger-scan] has got its executor,
    a request with [autoRun: true] answers with success and [autoMode] set,
    and calls nothing on the executor. *)
Theorem scan_then_autoRun_starts_nothing
    (c c' : Server.calls) (st : Server.state) (b : Server.body) (testMode : bool) :
  Server.executor st = true \/ Server.construct_error c = None ->
  Server.body_testMode b = Some testMode ->
  Server.body_autoRun b = Some true ->
  let scanned := fst (fst (Server.postScan c st)) in
  let triggered := fst (fst (Server.postTriggerScan c st)) in
  ~ In Server.Start (snd (fst (Server.postScan c st)))
  /\ ~ In Server.Start (snd (fst (Server.postTriggerScan c st)))
  /\ Server.cfg scanned = Server.cfg st
  /\ snd (fst (Server.postConfig c' scanned b)) = []
  /\ snd (Server.postConfig c' scanned b) = Server.Ok testMode true
  /\ snd (fst (Server.postConfig c' triggered b)) = []
  /\ snd (Server.postConfig c' triggered b) = Server.Ok testMode true.
Proof.
  intros Hex Ht Ha scanned triggered. subst scanned triggered.
  destruct (postScan_parts c st) as [-> ->].
  destruct (ensure_and_process_no_start c st) as (Hstart & _ & Hcfg & Hrun).
  specialize (Hrun Hex).
  destruct (postConfig_running c' _ b testMode Hrun Ht Ha) as (Hcmd & Hresp & _).
  repeat split; assumption.
Qed.

Lemma scan_then_autoRun_starts_nothing_witness :
  snd (fst (Server.postConfig (Server.mkCalls None None None None 0)
              (fst (fst (Server.postScan (Server.mkCalls None None None None 12)
                           (Server.mkState (Server.mkConfig false false None None None)
                                           false))))
              (Server.mkBody (Some false) None None (Some true))))
  = [].
Proof.
  apply (scan_then_autoRun_starts_nothing
           (Server.mkCalls None None None None 12) (Server.mkCalls None None None None 0)
           (Server.mkState (Server.mkConfig false false None None None) false)
           (Server.mkBody (Some false) None None (Some true)) false).
  - right. reflexivity.
  - reflexivity.
  - reflexivity.
Defined.

(** * The matrix view without an inventory *)

Lemma usageMap_no_empty_key (records : list UsageRecord.t) :
  usageMap records !! EmptyString = None.
Proof.
  rewrite usageMap_lookup.
  destruct (existsb (Spec.attributed EmptyString) records) eqn:E; [|reflexivity].
  apply existsb_exists in E as (r & _ & Hr).
  apply attributed_spec in Hr as [_ Hk].
  destruct (match_P_capture _ _ Hk) as (pre & post & _ & _ & Hl).
  cbn [String.length] in Hl. lia.
Qed.

(** X24. When the inventory cannot be read, the matrix view is built from
    the processed tools: one record per tool, in order, with stock 0 and
    the warning threshold 3 that the inventory path computes for an empty
    stock. In the usage merge such a record gets 0 minutes whatever the
    usage records are, unless its id holds [RT-] followed by an optional [X]
    and four digits. *)
Theorem fallback_view_has_no_usage
    (tools : list ProcessedTool.t) (records : list UsageRecord.t) :
  List.map FallbackTool.toolId (fallbackTools tools) = List.map ProcessedTool.id tools
  /\ Forall (fun t => FallbackTool.inPool t = 0 /\
                      FallbackTool.warningThreshold t = warningThreshold (FallbackTool.inPool t) /\
                      FallbackTool.toolType t <> EmptyString /\
                      (JS.match_RT (FallbackTool.toolId t) = None ->
                       fallbackUsageMinutes (usageMap records) t = 0))
            (fallbackTools tools).
Proof.
  split.
  - unfold fallbackTools. rewrite List.map_map. reflexivity.
  - unfold fallbackTools. apply List.Forall_forall. intros t Ht.
    apply List.in_map_iff in Ht as [tool [<- _]].
    split; [reflexivity|]. split; [reflexivity|]. split.
    + cbn [fallbackTool FallbackTool.toolType].
      destruct (ProcessedTool.name tool) as [[|c s]|]; discriminate.
    + intros Hnone. unfold fallbackUsageMinutes. cbv zeta.
      rewrite Hnone, usageMap_no_empty_key. reflexivity.
Qed.

Lemma fallback_view_has_no_usage_witness :
  fallbackUsageMinutes (usageMap sample_usage)
    (fallbackTool (ProcessedTool.mk "FRA-P8201-S15.2R0_H100W16L100X" None)) = 0.
Proof.
  pose proof (proj2 (fallback_view_has_no_usage
                       [ProcessedTool.mk "FRA-P8201-S15.2R0_H100W16L100X" None]
                       sample_usage)) as H.
  apply List.Forall_inv in H. apply (proj2 (proj2 (proj2 H))). reflexivity.
Defined.
